(** * Thumbnails for 3D models: [convert_model_to_image.py]

    A shallow embedding of [eucalyptus/src/scripts/convert_model_to_image.py]
    and the properties of its format dispatch, of its choice among the views
    of an STL render, of what it writes and of its directory walk.

    Conventions of the embedding.
    - Python [str] is [string]; [str.lower] is the ASCII lower-casing, which
      is what [str.lower] does on an ASCII string (the three supported
      extensions are ASCII, and no other code point lower-cases to one of
      their letters). A law of [lower] is stated for ASCII strings only.
    - [os.path] is the POSIX flavour ([posixpath]): the separator is [/].
    - The filesystem is a finite map from path strings to nodes; paths are
      compared as written (no normalisation, no links). The map does not
      tie an entry to its parent: [makedirs] and [write_file] are
      [os.makedirs] and [open] for a path whose parent directory exists,
      and what depends on the parent (the ancestors [os.makedirs] would
      create, a write below a missing directory) is stated under the
      hypothesis [dir_exists] or for a run that starts with the
      constructor. A directory lists its entries in the order in which the
      map enumerates its keys.
    - The renderers of the package [model_to_image] are not part of the
      program: they are parameters, functions of the filesystem they read
      and of their argument, which return a Python value or raise.
    - A Python exception that nothing catches ends the call that raised it
      and every caller; what was written before stays written. *)

From Stdlib Require Import Ascii String ZArith.
From Stdlib.Strings Require Import Byte.
From stdpp Require Import base option list gmap strings fin_maps.

Local Open Scope string_scope.

(** ** Strings and [os.path] *)

Module Path.

Definition sep : ascii := "/"%char.
Definition extsep : ascii := "."%char.

(** [c.lower()] on one ASCII character. *)
Definition lower_ascii (c : ascii) : ascii :=
  let n := nat_of_ascii c in
  if (65 <=? n)%nat && (n <=? 90)%nat then ascii_of_nat (n + 32) else c.

(** [s.lower()], for an ASCII string [s]. *)
Fixpoint lower (s : string) : string :=
  match s with
  | EmptyString => EmptyString
  | String c s' => String (lower_ascii c) (lower s')
  end.

(** [s.rfind(c)] counted from offset [i]: the last index of [c], or [-1]. *)
Fixpoint rfind_from (c : ascii) (s : string) (i : Z) : Z :=
  match s with
  | EmptyString => (-1)%Z
  | String a s' =>
      let r := rfind_from c s' (i + 1)%Z in
      if (0 <=? r)%Z then r
      else if Ascii.eqb a c then i else (-1)%Z
  end.

Definition rfind (c : ascii) (s : string) : Z := rfind_from c s 0%Z.

(** [s[:n]] and [s[n:]] for [0 <= n]. *)
Fixpoint take_str (n : nat) (s : string) : string :=
  match n, s with
  | S n', String a s' => String a (take_str n' s')
  | _, _ => EmptyString
  end.

Fixpoint drop_str (n : nat) (s : string) : string :=
  match n, s with
  | S n', String _ s' => drop_str n' s'
  | _, _ => s
  end.

Fixpoint all_char (c : ascii) (s : string) : bool :=
  match s with
  | EmptyString => true
  | String a s' => Ascii.eqb a c && all_char c s'
  end.

(** [c in s] *)
Fixpoint mem_char (c : ascii) (s : string) : bool :=
  match s with
  | EmptyString => false
  | String a s' => Ascii.eqb a c || mem_char c s'
  end.

(** [s.isascii()] *)
Fixpoint is_ascii (s : string) : bool :=
  match s with
  | EmptyString => true
  | String a s' => (nat_of_ascii a <? 128)%nat && is_ascii s'
  end.

Fixpoint last_char (s : string) : option ascii :=
  match s with
  | EmptyString => None
  | String a EmptyString => Some a
  | String _ s' => last_char s'
  end.

(** [s.rstrip(c)] *)
Fixpoint rstrip (c : ascii) (s : string) : string :=
  match s with
  | EmptyString => EmptyString
  | String a s' =>
      match rstrip c s' with
      | EmptyString => if Ascii.eqb a c then EmptyString else String a EmptyString
      | r => String a r
      end
  end.

(** [os.path.splitext]: the extension starts at the last dot of the last
    component, unless only dots come before it in that component. *)
Definition splitext (p : string) : string * string :=
  let sepIndex := rfind sep p in
  let dotIndex := rfind extsep p in
  if (sepIndex <? dotIndex)%Z then
    let filenameIndex := Z.to_nat (sepIndex + 1) in
    let leading := take_str (Z.to_nat dotIndex - filenameIndex) (drop_str filenameIndex p) in
    if all_char extsep leading then (p, EmptyString)
    else (take_str (Z.to_nat dotIndex) p, drop_str (Z.to_nat dotIndex) p)
  else (p, EmptyString).

(** [os.path.basename] *)
Definition basename (p : string) : string :=
  drop_str (Z.to_nat (rfind sep p + 1)) p.

(** [os.path.dirname] *)
Definition dirname (p : string) : string :=
  let head := take_str (Z.to_nat (rfind sep p + 1)) p in
  if negb (String.eqb head EmptyString) && negb (all_char sep head)
  then rstrip sep head else head.

(** [os.path.join(a, b)] *)
Definition join (a b : string) : string :=
  match b with
  | String c _ =>
      if Ascii.eqb c sep then b
      else if String.eqb a EmptyString then b
      else if bool_decide (last_char a = Some sep) then a +:+ b
      else a +:+ String sep b
  | EmptyString =>
      if String.eqb a EmptyString then EmptyString
      else if bool_decide (last_char a = Some sep) then a
      else a +:+ String sep EmptyString
  end.

End Path.

(** ** Python values, the filesystem and the console *)

(** What a renderer can hand back: [None], a [str], or an [io.BytesIO]
    holding bytes. *)
Inductive pyval : Type :=
  | PNone
  | PStr (s : string)
  | PBytesIO (b : list byte).

(** [bool(v)]: [None] and the empty [str] are false; an [io.BytesIO] object
    defines neither [__bool__] nor [__len__], so it is true whatever it
    holds. *)
Definition truthy (v : pyval) : bool :=
  match v with
  | PNone => false
  | PStr s => negb (String.eqb s "")
  | PBytesIO _ => true
  end.

(** [str(v)], as [print] and an f-string show it. The address in the
    representation of an [io.BytesIO] object is left out. *)
Definition str_of (v : pyval) : string :=
  match v with
  | PNone => "None"
  | PStr s => s
  | PBytesIO _ => "<_io.BytesIO object>"
  end.

Definition falsy (v : pyval) : Prop := truthy v = false.

(** [isinstance(v, io.BytesIO)] *)
Definition is_buffer (v : pyval) : bool :=
  match v with PBytesIO _ => true | _ => false end.

(** A [dict] with [str] keys, in insertion order. *)
Abbreviation dict := (list (string * pyval)).

(** [d[k]]: the value under [k]; [None] when [k in d] is false. *)
Fixpoint dict_get (k : string) (d : dict) : option pyval :=
  match d with
  | [] => None
  | (k', v) :: d' => if String.eqb k' k then Some v else dict_get k d'
  end.

(** [d.values()] *)
Definition dict_values (d : dict) : list pyval := d.*2.

Inductive node : Type :=
  | File (content : list byte)
  | Dir.

Inductive exn : Type :=
  | FileNotFoundError (p : string)
  | FileExistsError (p : string)
  | IsADirectoryError (p : string)
  | RendererError (msg : string).

Inductive result (A : Type) : Type :=
  | Ok (a : A)
  | Raise (e : exn).
Arguments Ok {A} a.
Arguments Raise {A} e.

(** The world a run acts on: the files, and the lines printed so far. *)
Record world : Type := World {
  fs : gmap string node;
  stdout : list string
}.

(** A computation: it reads and changes the world, and returns or raises. *)
Definition M (A : Type) : Type := world -> result A * world.

Definition ret {A} (a : A) : M A := fun w => (Ok a, w).

Definition bind {A B} (m : M A) (k : A -> M B) : M B :=
  fun w => match m w with
           | (Ok a, w') => k a w'
           | (Raise e, w') => (Raise e, w')
           end.

Notation "x <- m ;; k" := (bind m (fun x => k))
  (at level 100, m at next level, right associativity).
Notation "m ;;; k" := (bind m (fun _ => k))
  (at level 100, right associativity).

(** A call of a function that does not change the world. *)
Definition call {A} (f : gmap string node -> result A) : M A :=
  fun w => (f (fs w), w).

Definition print (line : string) : M unit :=
  fun w => (Ok tt, World (fs w) (stdout w ++ [line])).

Definition is_file (t : gmap string node) (p : string) : bool :=
  match t !! p with Some (File _) => true | _ => false end.

Definition is_dir (t : gmap string node) (p : string) : bool :=
  match t !! p with Some Dir => true | _ => false end.

(** [os.path.isfile] and [os.path.isdir] *)
Definition isfile (p : string) : M bool := fun w => (Ok (is_file (fs w) p), w).
Definition isdir (p : string) : M bool := fun w => (Ok (is_dir (fs w) p), w).

(** The name under which the entry at key [k] appears in directory [p]. *)
Definition child_name (p k : string) : option string :=
  let n := Path.basename k in
  if negb (String.eqb n "") && String.eqb (Path.join p n) k then Some n else None.

Definition list_dir (t : gmap string node) (p : string) : list string :=
  omap (fun kv => child_name p kv.1) (map_to_list t).

(** [os.listdir], in the order the map enumerates its keys. *)
Definition listdir (p : string) : M (list string) :=
  fun w => (Ok (list_dir (fs w) p), w).

(** The directory [d] is there for [os]: the empty path stands for the
    current directory. *)
Definition dir_exists (t : gmap string node) (d : string) : Prop :=
  d = "" \/ is_dir t d = true.

(** [os.makedirs(d, exist_ok=True)] where the parent of [d] exists: nothing
    above [d] has to be created, and [os.mkdir(d)] is the whole effect. *)
Definition makedirs (d : string) : M unit :=
  fun w => match fs w !! d with
           | Some Dir => (Ok tt, w)
           | Some (File _) => (Raise (FileExistsError d), w)
           | None => (Ok tt, World (<[d := Dir]> (fs w)) (stdout w))
           end.

(** [open(p, "rb").read()] *)
Definition read_file (p : string) : M (list byte) :=
  fun w => match fs w !! p with
           | Some (File b) => (Ok b, w)
           | Some Dir => (Raise (IsADirectoryError p), w)
           | None => (Raise (FileNotFoundError p), w)
           end.

(** [open(p, "wb").write(b)] where the directory of [p] exists. *)
Definition write_file (p : string) (b : list byte) : M unit :=
  fun w => match fs w !! p with
           | Some Dir => (Raise (IsADirectoryError p), w)
           | _ => (Ok tt, World (<[p := File b]> (fs w)) (stdout w))
           end.

(** [for x in l: body(x)] *)
Fixpoint for_each {A} (l : list A) (body : A -> M unit) : M unit :=
  match l with
  | [] => ret tt
  | x :: l' => body x ;;; for_each l' body
  end.

(** ** The data of the program *)

Definition SUPPORTED_EXTS : list string := [".obj"; ".glb"; ".stl"].

(** [ext in SUPPORTED_EXTS] *)
Definition supported (ext : string) : bool := bool_decide (ext ∈ SUPPORTED_EXTS).

(** The fields [ProcessModel.__init__] sets. *)
Record ProcessModel : Type := {
  model_path : string;
  model_dir : string;
  model_name : string;
  thumbnails_dir : string;
  output_dir : string
}.

(** Line 27: the extension [render] dispatches on. *)
Definition extension (self : ProcessModel) : string :=
  Path.lower (Path.splitext (model_path self)).2.

(** How lines 27-49 of [render] end: with a [return], or with a value in
    [image_bytes] for lines 51-58. *)
Inductive selection : Type :=
  | Return (b : bool)
  | Candidate (image_bytes : pyval).

(** Lines 43-46: the loop over [stl_images.values()]; [image_bytes] keeps
    its value when no view is true. *)
Fixpoint first_truthy (values : list pyval) (image_bytes : pyval) : pyval :=
  match values with
  | [] => image_bytes
  | img_bytes :: rest =>
      if truthy img_bytes then img_bytes else first_truthy rest image_bytes
  end.

(** Lines 40-46: [image_bytes] after the choice among the views. *)
Definition select_view (stl_images : dict) : pyval :=
  match dict_get "front" stl_images with
  | Some front =>
      if truthy front then front
      else first_truthy (dict_values stl_images) PNone
  | None => first_truthy (dict_values stl_images) PNone
  end.

(** ** The walk, in the words of the specification *)

(** An entry of a directory is a candidate when it is a regular file with a
    supported extension, whatever the case of its letters. *)
Definition is_candidate (t : gmap string node) (path fname : string) : bool :=
  is_file t (Path.join path fname) &&
  supported (Path.lower (Path.splitext fname).2).

(** The sequence of model paths the walk of a directory produces: its
    candidates among the direct entries, in the order of the listing. *)
Definition walk_dir (t : gmap string node) (path : string) : list string :=
  Path.join path <$> filter (fun fname => is_candidate t path fname) (list_dir t path).

(** Every entry of [t] is still there in [t'], a file as a file and a
    directory as a directory. *)
Definition kind_kept (t t' : gmap string node) : Prop :=
  forall k, is_Some (t !! k) ->
    is_Some (t' !! k) /\ is_file t' k = is_file t k.

(** ** What a run may change *)

(** [s] ends with [suffix]. *)
Definition ends_with (s suffix : string) : Prop := exists a, s = a +:+ suffix.

(** From [t] to [t'] every entry is as it was, or is a new directory whose
    path ends in [thumbnails], or is a file whose path ends in [.png],
    written where no directory stood. *)
Definition only_thumbnails (t t' : gmap string node) : Prop :=
  forall k,
    t' !! k = t !! k \/
    (t !! k = None /\ t' !! k = Some Dir /\ ends_with k "thumbnails") \/
    (t !! k <> Some Dir /\ (exists b, t' !! k = Some (File b)) /\ ends_with k ".png").

(** The console of [w'] is the console of [w] with lines added. *)
Definition console_grows (w w' : world) : Prop :=
  exists lines, stdout w' = (stdout w ++ lines)%list.

(** A renderer that returns for every argument. *)
Definition never_raise {A B C} (f : A -> B -> result C) : Prop :=
  forall a b, exists c, f a b = Ok c.

(** ** Sample data *)

Module Demo.

Definition png : list byte := [x89; x50; x4e; x47].
Definition png2 : list byte := [x89; x50; x4e; x47; x0d; x0a].

(** Renderers with a fixed answer. *)
Definition obj_returns (v : pyval) : gmap string node -> string -> result pyval :=
  fun _ _ => Ok v.
Definition glb_returns (v : pyval) : list byte -> result pyval :=
  fun _ => Ok v.
Definition stl_returns (d : dict) : gmap string node -> string -> result dict :=
  fun _ _ => Ok d.

(** A folder with one model of each format, a picture and a subfolder. *)
Definition models : gmap string node :=
  list_to_map
    [("/models", Dir);
     ("/models/chair.obj", File [x6f]);
     ("/models/tank.GLB", File [x67]);
     ("/models/gear.stl", File [x73]);
     ("/models/photo.jpg", File [xff]);
     ("/models/old", Dir);
     ("/models/old/lamp.obj", File [x6f])].

(** The same folder, where a directory stands at the output path of
    [gear.stl]. *)
Definition blocked : gmap string node :=
  <["/models/thumbnails/gear.png" := Dir]> (<["/models/thumbnails" := Dir]> models).

Definition start (t : gmap string node) : world := World t [].

Definition gear : ProcessModel :=
  {| model_path := "/models/gear.stl";
     model_dir := "/models";
     model_name := "gear";
     thumbnails_dir := "/models/thumbnails";
     output_dir := "/models/thumbnails/gear.png" |}.

(** Views of an STL render. *)
Definition views_front_last : dict :=
  [("top", PBytesIO png2); ("side", PNone); ("front", PBytesIO png)].
Definition views_no_front : dict :=
  [("top", PNone); ("side", PBytesIO png2); ("back", PBytesIO png)].
Definition views_all_none : dict :=
  [("front", PNone); ("top", PStr ""); ("side", PNone)].
Definition views_empty_buffer : dict :=
  [("front", PBytesIO [])].
Definition views_with_error : dict :=
  [("top", PBytesIO png2); ("error", PStr "mesh has no faces"); ("front", PBytesIO png)].
Definition views_error_no_front : dict :=
  [("error", PStr "mesh has no faces"); ("top", PBytesIO png2)].

(** A folder without any model. *)
Definition attic : gmap string node :=
  list_to_map
    [("/attic", Dir);
     ("/attic/notes.txt", File [x6e]);
     ("/attic/box", Dir);
     ("/attic/box/lamp.obj", File [x6f])].

(** The console after the one line [line]. *)
Definition said (t : gmap string node) (line : string) : world := World t [line].

End Demo.

(** ** The program *)

Section Program.

(** The renderers of [model_to_image]. *)
Variable process_obj : gmap string node -> string -> result pyval.
Variable glb_to_image : list byte -> result pyval.
Variable process_stl : gmap string node -> string -> result dict.

(** The fields of [ProcessModel(path)], lines 15-18 and 20. *)
Definition attributes (path : string) : ProcessModel :=
  let dir := Path.dirname path in
  let name := (Path.splitext (Path.basename path)).1 in
  let thumbs := Path.join dir "thumbnails" in
  {| model_path := path;
     model_dir := dir;
     model_name := name;
     thumbnails_dir := thumbs;
     output_dir := Path.join thumbs (name +:+ ".png") |}.

(** [ProcessModel.__init__]: line 19 creates the directory. *)
Definition init (path : string) : M ProcessModel :=
  let self := attributes path in
  makedirs (thumbnails_dir self) ;;;
  ret self.

(** The three strategies: the branches of lines 29-46. *)
Definition obj_strategy (self : ProcessModel) : M selection :=
  image_bytes <- call (fun t => process_obj t (model_path self)) ;;
  ret (Candidate image_bytes).

Definition glb_strategy (self : ProcessModel) : M selection :=
  glb_bytes <- read_file (model_path self) ;;
  image_bytes <- call (fun _ => glb_to_image glb_bytes) ;;
  ret (Candidate image_bytes).

Definition stl_strategy (self : ProcessModel) : M selection :=
  stl_images <- call (fun t => process_stl t (model_path self)) ;;
  match dict_get "error" stl_images with
  | Some descriptor => print (str_of descriptor) ;;; ret (Return false)
  | None => ret (Candidate (select_view stl_images))
  end.

(** The selection a renderer's single answer stands for. *)
Definition candidate_of (r : result pyval) : result selection :=
  match r with
  | Ok image_bytes => Ok (Candidate image_bytes)
  | Raise e => Raise e
  end.

(** Lines 27-49 of [render]. *)
Definition dispatch (self : ProcessModel) : M selection :=
  let ext := extension self in
  if String.eqb ext ".obj" then obj_strategy self
  else if String.eqb ext ".glb" then glb_strategy self
  else if String.eqb ext ".stl" then stl_strategy self
  else print ("Unsupported model format: " +:+ ext) ;;; ret (Return false).

(** Lines 51-58 of [render]. *)
Definition save (self : ProcessModel) (image_bytes : pyval) : M bool :=
  match image_bytes with
  | PBytesIO b =>
      write_file (output_dir self) b ;;;
      print ("Thumbnail saved to " +:+ output_dir self) ;;;
      ret true
  | _ =>
      print ("Model conversion failed or returned error: " +:+ str_of image_bytes) ;;;
      ret false
  end.

(** [ProcessModel.render] *)
Definition render (self : ProcessModel) : M bool :=
  s <- dispatch self ;;
  match s with
  | Return b => ret b
  | Candidate image_bytes => save self image_bytes
  end.

(** [ProcessModel(path).render()] *)
Definition thumbnail (path : string) : M bool :=
  self <- init path ;; render self.

(** Lines 66-67 and 71-72: one model is announced and rendered; what
    [render] returns is dropped. *)
Definition process_file (fpath : string) : M unit :=
  print ("Processing file: " +:+ fpath) ;;;
  thumbnail fpath ;;;
  ret tt.

(** Lines 64-67: the body of the loop over a directory. *)
Definition visit (path fname : string) : M unit :=
  let fpath := Path.join path fname in
  f <- isfile fpath ;;
  if f && supported (Path.lower (Path.splitext fname).2) then process_file fpath
  else ret tt.

(** [process_path] *)
Definition process_path (path : string) : M unit :=
  d <- isdir path ;;
  if d then
    print ("Processing folder: " +:+ path) ;;;
    names <- listdir path ;;
    for_each names (visit path)
  else
    f <- isfile path ;;
    if f then
      let ext := Path.lower (Path.splitext path).2 in
      if supported ext then process_file path
      else print ("Unsupported file format: " +:+ ext)
    else print ("Path does not exist: " +:+ path).

(** [main], for the arguments [sys.argv]. *)
Definition main (argv : list string) : M unit :=
  match argv with
  | _ :: path :: _ => process_path path
  | _ => print "Usage: python convert_model_to_image.py <file_or_folder_path>"
  end.

(** ** Facts about paths *)

Lemma supported_cases (ext : string) :
  supported ext = true -> ext = ".obj" \/ ext = ".glb" \/ ext = ".stl".
Proof.
  unfold supported, SUPPORTED_EXTS. intros H%bool_decide_eq_true.
  repeat (apply elem_of_cons in H as [H|H]; [by auto|]).
  by apply elem_of_nil in H.
Qed.

Lemma app_str_cons (c : ascii) (a b : string) :
  String c a +:+ b = String c (a +:+ b).
Proof. reflexivity. Qed.

Lemma app_str_empty_r (a : string) : a +:+ "" = a.
Proof.
  induction a as [|c a IH]; [done|]. by rewrite app_str_cons, IH.
Qed.

Lemma app_str_assoc (a b c : string) : a +:+ (b +:+ c) = (a +:+ b) +:+ c.
Proof.
  induction a as [|x a IH]; [done|]. by rewrite !app_str_cons, IH.
Qed.

Lemma take_drop_str (n : nat) (s : string) :
  Path.take_str n s +:+ Path.drop_str n s = s.
Proof.
  revert s. induction n as [|n IH]; intros [|a s]; simpl; try done.
  by rewrite app_str_cons, IH.
Qed.

(** The two parts [splitext] returns make up the path. *)
Lemma splitext_app (p : string) :
  (Path.splitext p).1 +:+ (Path.splitext p).2 = p.
Proof.
  unfold Path.splitext.
  destruct (_ <? _)%Z; simpl; [|by rewrite app_str_empty_r].
  destruct (Path.all_char _ _); simpl.
  - by rewrite app_str_empty_r.
  - apply take_drop_str.
Qed.

Lemma length_app_str (a b : string) :
  String.length (a +:+ b) = String.length a + String.length b.
Proof.
  induction a as [|c a IH]; [done|].
  rewrite app_str_cons. simpl. by rewrite IH.
Qed.

(** Two endings of the same length of one string are the same. *)
Lemma app_str_suffix_eq (a1 b1 a2 b2 : string) :
  a1 +:+ b1 = a2 +:+ b2 -> String.length b1 = String.length b2 -> b1 = b2.
Proof.
  revert a2. induction a1 as [|c a1 IH]; intros [|c2 a2] H Hl.
  - done.
  - apply (f_equal String.length) in H.
    rewrite !length_app_str in H. simpl in H. lia.
  - apply (f_equal String.length) in H.
    rewrite !length_app_str in H. simpl in H. lia.
  - rewrite !app_str_cons in H. injection H as _ H. by apply (IH a2).
Qed.

(** [join] keeps its second argument at the end. *)
Lemma join_suffix (a b : string) :
  exists a', Path.join a b = a' +:+ b.
Proof.
  unfold Path.join. destruct b as [|c b].
  - exists (Path.join a ""). by rewrite app_str_empty_r.
  - destruct (Ascii.eqb c Path.sep); [by exists ""|].
    destruct (String.eqb a ""); [by exists ""|].
    destruct (bool_decide _); [by exists a|].
    exists (a +:+ String Path.sep ""). by rewrite <- app_str_assoc.
Qed.

Lemma last_char_app (a b : string) :
  b <> "" -> Path.last_char (a +:+ b) = Path.last_char b.
Proof.
  intros Hb. induction a as [|c a IH]; [done|].
  rewrite app_str_cons. simpl. rewrite IH.
  destruct (a +:+ b) eqn:E; [|done].
  destruct a; [done|]. by rewrite app_str_cons in E.
Qed.

Lemma last_char_join (a b : string) :
  b <> "" -> Path.last_char (Path.join a b) = Path.last_char b.
Proof.
  intros Hb. destruct (join_suffix a b) as [a' ->]. by apply last_char_app.
Qed.

(** After the last [c] of a string there is no [c]. *)
Lemma rfind_from_last (c : ascii) (s : string) (i : Z) :
  (0 <= i)%Z ->
  let r := Path.rfind_from c s i in
  (r = (-1)%Z /\ Path.mem_char c s = false) \/
  ((i <= r)%Z /\ Path.mem_char c (Path.drop_str (S (Z.to_nat (r - i))) s) = false).
Proof.
  revert i. induction s as [|a s IH]; intros i Hi; [by left|].
  simpl. specialize (IH (i + 1)%Z ltac:(lia)). simpl in IH.
  destruct (0 <=? Path.rfind_from c s (i + 1))%Z eqn:Hr.
  - apply Z.leb_le in Hr. destruct IH as [[E _]|[Hle IH]]; [lia|].
    right. split; [lia|].
    replace (Z.to_nat (Path.rfind_from c s (i + 1) - i))
      with (S (Z.to_nat (Path.rfind_from c s (i + 1) - (i + 1)))) by lia.
    exact IH.
  - apply Z.leb_gt in Hr. destruct IH as [[_ Hno]|[Hle _]]; [|lia].
    destruct (Ascii.eqb a c) eqn:Ha.
    + right. split; [lia|]. by replace (Z.to_nat (i - i)) with 0 by lia.
    + left. by rewrite Hno.
Qed.

(** [basename] returns the last component: it holds no separator. *)
Lemma basename_no_sep (p : string) :
  Path.mem_char Path.sep (Path.basename p) = false.
Proof.
  unfold Path.basename, Path.rfind.
  destruct (rfind_from_last Path.sep p 0 ltac:(lia)) as [[-> H]|[Hle H]]; [done|].
  rewrite Z.sub_0_r in H.
  by replace (Z.to_nat (Path.rfind_from Path.sep p 0 + 1))
    with (S (Z.to_nat (Path.rfind_from Path.sep p 0))) by lia.
Qed.

Lemma mem_char_take (c : ascii) (n : nat) (s : string) :
  Path.mem_char c s = false -> Path.mem_char c (Path.take_str n s) = false.
Proof.
  revert s. induction n as [|n IH]; intros [|a s]; simpl; try done.
  intros [Ha Hs]%orb_false_iff. by rewrite Ha, IH.
Qed.

(** The stem [splitext] returns has no more separators than the path. *)
Lemma splitext_stem_no_sep (p : string) :
  Path.mem_char Path.sep p = false ->
  Path.mem_char Path.sep (Path.splitext p).1 = false.
Proof.
  intros H. unfold Path.splitext.
  destruct (_ <? _)%Z; [|done].
  destruct (Path.all_char _ _); [done|]. by apply mem_char_take.
Qed.

(** [join] puts one separator between a directory that does not end with
    one and a name that does not start with one. *)
Lemma join_plain (a b : string) :
  a <> "" -> Path.last_char a <> Some Path.sep ->
  Path.mem_char Path.sep b = false ->
  Path.join a b = a +:+ "/" +:+ b.
Proof.
  intros Ha Hl Hb. unfold Path.join.
  assert (String.eqb a "" = false) as -> by by apply String.eqb_neq.
  rewrite bool_decide_eq_false_2 by done.
  destruct b as [|c b]; [done|].
  simpl in Hb. apply orb_false_iff in Hb as [-> _]. done.
Qed.

Lemma mem_char_app (c : ascii) (a b : string) :
  Path.mem_char c (a +:+ b) = Path.mem_char c a || Path.mem_char c b.
Proof.
  induction a as [|x a IH]; [done|].
  rewrite app_str_cons. simpl. by rewrite IH, orb_assoc.
Qed.

Lemma thumbnails_dir_attributes (path : string) :
  thumbnails_dir (attributes path) = Path.join (Path.dirname path) "thumbnails".
Proof. reflexivity. Qed.

Lemma output_dir_attributes (path : string) :
  output_dir (attributes path) =
    Path.join (thumbnails_dir (attributes path))
              ((Path.splitext (Path.basename path)).1 +:+ ".png").
Proof. reflexivity. Qed.

(** The output path is the directory of the thumbnails, a separator, the
    name of the model without its extension, and [.png]. *)
Lemma output_dir_shape (path : string) :
  output_dir (attributes path)
    = thumbnails_dir (attributes path) +:+ "/" +:+ model_name (attributes path) +:+ ".png".
Proof.
  rewrite output_dir_attributes. apply join_plain.
  - rewrite thumbnails_dir_attributes. intros H.
    apply (f_equal Path.last_char) in H. by rewrite last_char_join in H.
  - rewrite thumbnails_dir_attributes, last_char_join; done.
  - rewrite mem_char_app.
    change (model_name (attributes path)) with (Path.splitext (Path.basename path)).1.
    rewrite splitext_stem_no_sep; [done|apply basename_no_sep].
Qed.


(** The output path ends in [.png]. *)
Lemma output_dir_suffix (path : string) :
  exists a, output_dir (attributes path) = a +:+ ".png".
Proof.
  rewrite output_dir_attributes.
  destruct (join_suffix (thumbnails_dir (attributes path))
              ((Path.splitext (Path.basename path)).1 +:+ ".png")) as [a ->].
  eexists. by rewrite app_str_assoc.
Qed.

(** The output path is not the directory of the thumbnails. *)
Lemma output_dir_not_thumbnails_dir (p q : string) :
  output_dir (attributes p) <> thumbnails_dir (attributes q).
Proof.
  intros H. apply (f_equal Path.last_char) in H.
  destruct (output_dir_suffix p) as [a Ha]. rewrite Ha in H.
  rewrite last_char_app in H by done.
  rewrite thumbnails_dir_attributes, last_char_join in H by done.
  discriminate.
Qed.


(** ** The choice among the views of an STL render *)

Lemma dict_get_in_values (k : string) (d : dict) (v : pyval) :
  dict_get k d = Some v -> v ∈ dict_values d.
Proof.
  induction d as [|[k' v'] d IH]; simpl; [done|].
  destruct (String.eqb k' k).
  - intros [= ->]. apply list_elem_of_here.
  - intros H. apply list_elem_of_further, IH, H.
Qed.

Lemma first_truthy_none (vs : list pyval) (d : pyval) :
  Forall falsy vs -> first_truthy vs d = d.
Proof.
  induction 1 as [|v vs Hv _ IH]; simpl; [done|].
  unfold falsy in Hv. by rewrite Hv.
Qed.

(** The loop stops at the first true value: everything before it is false. *)
Lemma first_truthy_split (vs : list pyval) (d : pyval) :
  Exists (fun v => truthy v = true) vs ->
  exists pre v post,
    vs = (pre ++ v :: post)%list /\ Forall falsy pre /\ truthy v = true /\
    first_truthy vs d = v.
Proof.
  induction vs as [|x vs IH]; intros Hex.
  - by apply Exists_nil in Hex.
  - simpl. destruct (truthy x) eqn:Hx.
    + exists [], x, vs. by repeat split.
    + apply Exists_cons in Hex as [Hex|Hex]; [congruence|].
      destruct (IH Hex) as (pre & v & post & -> & Hpre & Hv & Hsel).
      exists (x :: pre), v, post. repeat split; try done.
      by constructor.
Qed.

Lemma select_view_front (m : dict) (front : pyval) :
  dict_get "front" m = Some front -> truthy front = true ->
  select_view m = front.
Proof. unfold select_view. by intros -> ->. Qed.

Lemma select_view_no_front (m : dict) :
  (forall front, dict_get "front" m = Some front -> falsy front) ->
  select_view m = first_truthy (dict_values m) PNone.
Proof.
  unfold select_view. intros H.
  destruct (dict_get "front" m) as [front|]; [|done].
  by rewrite (H front).
Qed.

Lemma select_view_all_false (m : dict) :
  Forall falsy (dict_values m) -> select_view m = PNone.
Proof.
  intros H. rewrite select_view_no_front.
  - by apply first_truthy_none.
  - intros front Hf. eapply Forall_forall in H; [exact H|].
    eapply dict_get_in_values, Hf.
Qed.

(** ** [render] on an STL model *)

Lemma dispatch_obj (self : ProcessModel) :
  extension self = ".obj" -> dispatch self = obj_strategy self.
Proof. unfold dispatch. by intros ->. Qed.

Lemma dispatch_glb (self : ProcessModel) :
  extension self = ".glb" -> dispatch self = glb_strategy self.
Proof. unfold dispatch. by intros ->. Qed.

Lemma dispatch_stl (self : ProcessModel) :
  extension self = ".stl" -> dispatch self = stl_strategy self.
Proof. unfold dispatch. by intros ->. Qed.

(** What [dispatch] does with the mapping the STL renderer returned. *)
Lemma dispatch_stl_views (self : ProcessModel) (w : world) (m : dict) :
  extension self = ".stl" ->
  process_stl (fs w) (model_path self) = Ok m ->
  dict_get "error" m = None ->
  dispatch self w = (Ok (Candidate (select_view m)), w).
Proof.
  intros Hext Hm He. rewrite dispatch_stl by done.
  unfold stl_strategy, bind, call. rewrite Hm, He. done.
Qed.

Lemma dispatch_stl_error (self : ProcessModel) (w : world) (m : dict) (d : pyval) :
  extension self = ".stl" ->
  process_stl (fs w) (model_path self) = Ok m ->
  dict_get "error" m = Some d ->
  dispatch self w = (Ok (Return false), World (fs w) (stdout w ++ [str_of d])).
Proof.
  intros Hext Hm He. rewrite dispatch_stl by done.
  unfold stl_strategy, bind, call. rewrite Hm, He. done.
Qed.

(** C2, as amended. When the mapping the STL renderer returns has no key
    "error" and has a view named "front" whose value is true (a buffer),
    the image [render] selects is that value, wherever "front" stands in
    the mapping and whatever the other views hold. *)
Theorem front_view_selected
    (self : ProcessModel) (w : world) (m : dict) (front : pyval) :
  extension self = ".stl" ->
  process_stl (fs w) (model_path self) = Ok m ->
  dict_get "error" m = None ->
  dict_get "front" m = Some front ->
  truthy front = true ->
  dispatch self w = (Ok (Candidate front), w).
Proof.
  intros Hext Hm He Hf Ht.
  rewrite (dispatch_stl_views self w m) by done.
  by rewrite (select_view_front m front).
Qed.

(** C3, as amended. When the mapping has no key "error", its view "front"
    is missing or false, and some view is true, [render] selects the first
    true value in the order of the mapping; the choice depends on the
    mapping alone. *)
Theorem first_true_view_selected (self : ProcessModel) (w : world) (m : dict) :
  extension self = ".stl" ->
  process_stl (fs w) (model_path self) = Ok m ->
  dict_get "error" m = None ->
  (forall front, dict_get "front" m = Some front -> falsy front) ->
  Exists (fun v => truthy v = true) (dict_values m) ->
  exists pre v post,
    dict_values m = (pre ++ v :: post)%list /\
    Forall falsy pre /\ truthy v = true /\
    dispatch self w = (Ok (Candidate v), w) /\
    forall (self' : ProcessModel) (w' : world),
      extension self' = ".stl" ->
      process_stl (fs w') (model_path self') = Ok m ->
      dispatch self' w' = (Ok (Candidate v), w').
Proof.
  intros Hext Hm He Hf Hex.
  destruct (first_truthy_split (dict_values m) PNone Hex)
    as (pre & v & post & Hvs & Hpre & Hv & Hsel).
  exists pre, v, post.
  assert (Hs : select_view m = v) by by rewrite select_view_no_front.
  repeat split; try done.
  - by rewrite (dispatch_stl_views self w m), Hs.
  - intros self' w' Hext' Hm'.
    by rewrite (dispatch_stl_views self' w' m), Hs.
Qed.

(** C4, as amended. When the mapping has no key "error" and every view is
    false ([None] or an empty string; an [io.BytesIO] object is true even
    when it holds no bytes), [render] returns [False], reports the failure
    and leaves the files as they are. *)
Theorem all_views_false_fails (self : ProcessModel) (w : world) (m : dict) :
  extension self = ".stl" ->
  process_stl (fs w) (model_path self) = Ok m ->
  dict_get "error" m = None ->
  Forall falsy (dict_values m) ->
  render self w =
    (Ok false,
     World (fs w)
           (stdout w ++ ["Model conversion failed or returned error: None"])).
Proof.
  intros Hext Hm He Hall. unfold render, bind.
  rewrite (dispatch_stl_views self w m) by done.
  by rewrite select_view_all_false.
Qed.

(** C5. When the mapping the STL renderer returns carries an error
    descriptor, [render] returns [False], leaves the filesystem as it is,
    and prints the descriptor: a descriptor that is a string is printed
    as it is. *)
Theorem stl_error_descriptor_reported
    (self : ProcessModel) (w : world) (m : dict) (d : pyval) :
  extension self = ".stl" ->
  process_stl (fs w) (model_path self) = Ok m ->
  dict_get "error" m = Some d ->
  render self w = (Ok false, World (fs w) (stdout w ++ [str_of d])) /\
  (forall s, d = PStr s -> str_of d = s).
Proof.
  intros Hext Hm He. split; [|by intros s ->].
  unfold render, bind.
  by rewrite (dispatch_stl_error self w m d).
Qed.

(** C10. A key "error" in the mapping wins over every view: lines 27-49 end
    with [return False] after printing the value under "error", no image
    is selected, and the outcome is the same as for a mapping that holds
    the error alone, also when "front" holds a buffer. *)
Theorem error_key_precedes_views
    (self : ProcessModel) (w : world) (m : dict) (d : pyval) :
  extension self = ".stl" ->
  process_stl (fs w) (model_path self) = Ok m ->
  dict_get "error" m = Some d ->
  dispatch self w = (Ok (Return false), World (fs w) (stdout w ++ [str_of d])) /\
  (forall v, dispatch self w <> (Ok (Candidate v), w)) /\
  (forall front, dict_get "front" m = Some front -> truthy front = true ->
     render self w = (Ok false, World (fs w) (stdout w ++ [str_of d]))).
Proof.
  intros Hext Hm He.
  pose proof (dispatch_stl_error self w m d Hext Hm He) as Hd.
  split; [done|]. split.
  - intros v. rewrite Hd. congruence.
  - intros front _ _. unfold render, bind. by rewrite Hd.
Qed.

(** ** What [render] writes *)

Lemma obj_strategy_run (self : ProcessModel) (w : world) :
  obj_strategy self w = (candidate_of (process_obj (fs w) (model_path self)), w).
Proof.
  unfold obj_strategy, bind, call, ret, candidate_of.
  by destruct (process_obj _ _).
Qed.

Lemma glb_strategy_run (self : ProcessModel) (w : world) :
  glb_strategy self w =
    match fs w !! model_path self with
    | Some (File glb_bytes) => (candidate_of (glb_to_image glb_bytes), w)
    | Some Dir => (Raise (IsADirectoryError (model_path self)), w)
    | None => (Raise (FileNotFoundError (model_path self)), w)
    end.
Proof.
  unfold glb_strategy, bind, call, ret, read_file, candidate_of.
  destruct (fs w !! model_path self) as [[b|]|]; try done.
  by destruct (glb_to_image b).
Qed.

Lemma stl_strategy_run (self : ProcessModel) (w : world) :
  stl_strategy self w =
    match process_stl (fs w) (model_path self) with
    | Ok stl_images =>
        match dict_get "error" stl_images with
        | Some d => (Ok (Return false), World (fs w) (stdout w ++ [str_of d]))
        | None => (Ok (Candidate (select_view stl_images)), w)
        end
    | Raise e => (Raise e, w)
    end.
Proof.
  unfold stl_strategy, bind, call, ret, print.
  destruct (process_stl _ _) as [m|e]; [|done].
  by destruct (dict_get "error" m).
Qed.

Lemma dispatch_unsupported (self : ProcessModel) (w : world) :
  supported (extension self) = false ->
  dispatch self w =
    (Ok (Return false),
     World (fs w) (stdout w ++ ["Unsupported model format: " +:+ extension self])).
Proof.
  intros H. unfold dispatch.
  destruct (String.eqb_spec (extension self) ".obj") as [E|_];
    [by rewrite E in H|].
  destruct (String.eqb_spec (extension self) ".glb") as [E|_];
    [by rewrite E in H|].
  destruct (String.eqb_spec (extension self) ".stl") as [E|_];
    [by rewrite E in H|].
  done.
Qed.

(** Lines 27-49 read the files and may print; they change no file. *)
Lemma dispatch_fs (self : ProcessModel) (w : world) :
  fs (dispatch self w).2 = fs w.
Proof.
  destruct (supported (extension self)) eqn:Hs.
  - destruct (supported_cases _ Hs) as [E|[E|E]].
    + rewrite dispatch_obj, obj_strategy_run by done. done.
    + rewrite dispatch_glb, glb_strategy_run by done.
      by destruct (fs w !! model_path self) as [[b|]|].
    + rewrite dispatch_stl, stl_strategy_run by done.
      destruct (process_stl _ _) as [m|e]; [|done].
      by destruct (dict_get "error" m).
  - by rewrite dispatch_unsupported.
Qed.

Lemma save_not_buffer (self : ProcessModel) (v : pyval) (w : world) :
  is_buffer v = false ->
  save self v w =
    (Ok false,
     World (fs w)
           (stdout w ++ ["Model conversion failed or returned error: " +:+ str_of v])).
Proof. by destruct v. Qed.

Lemma save_buffer (self : ProcessModel) (b : list byte) (w : world) :
  save self (PBytesIO b) w =
    match fs w !! output_dir self with
    | Some Dir => (Raise (IsADirectoryError (output_dir self)), w)
    | _ => (Ok true,
            World (<[output_dir self := File b]> (fs w))
                  (stdout w ++ ["Thumbnail saved to " +:+ output_dir self]))
    end.
Proof.
  unfold save, bind, write_file, print, ret.
  by destruct (fs w !! output_dir self) as [[c|]|].
Qed.

(** [render], case by case on how lines 27-49 end. *)
Lemma render_run (self : ProcessModel) (w : world) :
  render self w =
    match dispatch self w with
    | (Ok (Return b), w') => (Ok b, w')
    | (Ok (Candidate v), w') => save self v w'
    | (Raise e, w') => (Raise e, w')
    end.
Proof.
  unfold render, bind.
  destruct (dispatch self w) as [[[b|v]|e] w']; done.
Qed.

(** C6. [render] writes a file only when the selected value is an
    [io.BytesIO] buffer: for any other selected value ([None], a string) it
    prints the failure, returns [False] and leaves the filesystem as it is;
    and whenever [render] changes the filesystem, the selected value was a
    buffer, whose bytes are the new content of the output path. *)
Theorem file_written_only_for_buffer (self : ProcessModel) (w : world) :
  (forall v w',
     dispatch self w = (Ok (Candidate v), w') ->
     is_buffer v = false ->
     render self w =
       (Ok false,
        World (fs w)
              (stdout w' ++ ["Model conversion failed or returned error: " +:+ str_of v])))
  /\
  (fs (render self w).2 <> fs w ->
   exists b w',
     dispatch self w = (Ok (Candidate (PBytesIO b)), w') /\
     render self w =
       (Ok true,
        World (<[output_dir self := File b]> (fs w))
              (stdout w' ++ ["Thumbnail saved to " +:+ output_dir self]))).
Proof.
  pose proof (dispatch_fs self w) as Hfs.
  rewrite render_run. split.
  - intros v w' Hd Hv. rewrite Hd in Hfs |- *. simpl in Hfs.
    by rewrite save_not_buffer, Hfs.
  - destruct (dispatch self w) as [[[r|v]|e] w'] eqn:Hd; simpl in Hfs;
      [by intros []| |by intros []].
    destruct v as [|s|b]; [by intros []|by intros []|].
    rewrite save_buffer.
    destruct (fs w' !! output_dir self) as [[c|]|] eqn:Ho; simpl;
      try (by intros []); intros _; exists b, w'; by rewrite Hfs.
Qed.

Lemma init_run (path : string) (w : world) :
  init path w =
    match fs w !! thumbnails_dir (attributes path) with
    | Some Dir => (Ok (attributes path), w)
    | Some (File _) => (Raise (FileExistsError (thumbnails_dir (attributes path))), w)
    | None =>
        (Ok (attributes path),
         World (<[thumbnails_dir (attributes path) := Dir]> (fs w)) (stdout w))
    end.
Proof.
  unfold init, bind, makedirs, ret.
  by destruct (fs w !! thumbnails_dir (attributes path)) as [[c|]|].
Qed.

Lemma thumbnail_run (path : string) (w : world) :
  thumbnail path w =
    match init path w with
    | (Ok self, w') => render self w'
    | (Raise e, w') => (Raise e, w')
    end.
Proof. unfold thumbnail, bind. by destruct (init path w) as [[self|e] w']. Qed.

Lemma render_unsupported (self : ProcessModel) (w : world) :
  supported (extension self) = false ->
  render self w =
    (Ok false,
     World (fs w) (stdout w ++ ["Unsupported model format: " +:+ extension self])).
Proof. intros H. by rewrite render_run, dispatch_unsupported. Qed.

(** C1, as amended. [render] looks at the lower-cased extension alone:
    [.obj], [.glb] and [.stl] go to the OBJ, the GLB and the STL renderer.
    For any other extension the method [render] prints that the format is
    not supported, returns [False] and changes nothing. No file is written
    by [ProcessModel(path).render()] either, but the constructor has
    created the directory of the thumbnails when it was missing (and raises
    when that path is a regular file): for a path whose directory exists,
    that new directory is the only change. *)
Theorem render_dispatches_on_extension (self : ProcessModel) (w : world) :
  (extension self = ".obj" ->
   dispatch self w = (candidate_of (process_obj (fs w) (model_path self)), w))
  /\
  (extension self = ".glb" ->
   dispatch self w =
     match fs w !! model_path self with
     | Some (File glb_bytes) => (candidate_of (glb_to_image glb_bytes), w)
     | Some Dir => (Raise (IsADirectoryError (model_path self)), w)
     | None => (Raise (FileNotFoundError (model_path self)), w)
     end)
  /\
  (extension self = ".stl" ->
   dispatch self w =
     match process_stl (fs w) (model_path self) with
     | Ok stl_images =>
         match dict_get "error" stl_images with
         | Some d => (Ok (Return false), World (fs w) (stdout w ++ [str_of d]))
         | None => (Ok (Candidate (select_view stl_images)), w)
         end
     | Raise e => (Raise e, w)
     end)
  /\
  (supported (extension self) = false ->
   render self w =
     (Ok false,
      World (fs w) (stdout w ++ ["Unsupported model format: " +:+ extension self])))
  /\
  (forall path : string,
     let ext := Path.lower (Path.splitext path).2 in
     let thumbs := Path.join (Path.dirname path) "thumbnails" in
     dir_exists (fs w) (Path.dirname path) ->
     supported ext = false ->
     thumbnail path w =
       match fs w !! thumbs with
       | Some Dir =>
           (Ok false, World (fs w) (stdout w ++ ["Unsupported model format: " +:+ ext]))
       | Some (File _) => (Raise (FileExistsError thumbs), w)
       | None =>
           (Ok false,
            World (<[thumbs := Dir]> (fs w))
                  (stdout w ++ ["Unsupported model format: " +:+ ext]))
       end).
Proof.
  repeat split.
  - intros E. by rewrite dispatch_obj, obj_strategy_run.
  - intros E. by rewrite dispatch_glb, glb_strategy_run.
  - intros E. by rewrite dispatch_stl, stl_strategy_run.
  - apply render_unsupported.
  - intros path ext thumbs _ Hs. rewrite thumbnail_run, init_run.
    change (thumbnails_dir (attributes path)) with thumbs.
    destruct (fs w !! thumbs) as [[c|]|]; [done| |];
      by rewrite render_unsupported.
Qed.

(** Lines 27-49 print only when they end with [return]. *)
Lemma dispatch_candidate_world (self : ProcessModel) (w w' : world) (v : pyval) :
  dispatch self w = (Ok (Candidate v), w') -> w' = w.
Proof.
  destruct (supported (extension self)) eqn:Hs.
  - destruct (supported_cases _ Hs) as [E|[E|E]].
    + rewrite dispatch_obj, obj_strategy_run by done. congruence.
    + rewrite dispatch_glb, glb_strategy_run by done.
      destruct (fs w !! model_path self) as [[b|]|]; congruence.
    + rewrite dispatch_stl, stl_strategy_run by done.
      destruct (process_stl _ _) as [m|e]; [|congruence].
      destruct (dict_get "error" m); congruence.
  - rewrite dispatch_unsupported by done. congruence.
Qed.



(** A successful [ProcessModel(path).render()], step by step: the directory
    is there after the constructor, a buffer is selected, and its bytes go
    to the output path. *)
Lemma thumbnail_true (path : string) (w w1 : world) :
  thumbnail path w = (Ok true, w1) ->
  let self := attributes path in
  let seen := <[thumbnails_dir self := Dir]> (fs w) in
  exists b,
    dispatch self (World seen (stdout w))
      = (Ok (Candidate (PBytesIO b)), World seen (stdout w)) /\
    seen !! output_dir self <> Some Dir /\
    w1 = World (<[output_dir self := File b]> seen)
               (stdout w ++ ["Thumbnail saved to " +:+ output_dir self]).
Proof.
  intros Hrun self seen. rewrite thumbnail_run, init_run in Hrun.
  fold self in Hrun.
  assert (exists w0, render self w0 = (Ok true, w1) /\ w0 = World seen (stdout w))
    as (w0 & Hr & ->).
  { destruct (fs w !! thumbnails_dir self) as [[c|]|] eqn:Ht; [done| |].
    - exists w. split; [done|]. unfold seen. rewrite insert_id by done.
      by destruct w.
    - by eexists. }
  rewrite render_run in Hr.
  destruct (dispatch self _) as [[[r|v]|e] w'] eqn:Hd; [| |done].
  - pose proof (dispatch_fs self (World seen (stdout w))) as Hfs.
    exfalso. revert Hd Hr. clear.
    destruct (supported (extension self)) eqn:Hs.
    + destruct (supported_cases _ Hs) as [E|[E|E]].
      * rewrite dispatch_obj, obj_strategy_run by done.
        destruct (process_obj _ _); simpl; congruence.
      * rewrite dispatch_glb, glb_strategy_run by done.
        destruct (_ !! model_path self) as [[b|]|]; try congruence.
        destruct (glb_to_image b); simpl; congruence.
      * rewrite dispatch_stl, stl_strategy_run by done.
        destruct (process_stl _ _) as [m|e]; [|congruence].
        destruct (dict_get "error" m); congruence.
    + rewrite dispatch_unsupported by done. congruence.
  - pose proof (dispatch_candidate_world _ _ _ _ Hd) as ->.
    destruct v as [|s|b]; [by rewrite save_not_buffer in Hr by done..|].
    rewrite save_buffer in Hr. simpl in Hr. exists b. split; [done|].
    match type of Hr with
    | context [match ?x with _ => _ end] =>
        change x with (seen !! output_dir self) in Hr
    end.
    destruct (seen !! output_dir self) as [[c|]|]; [| congruence |];
      (split; [done|]); by injection Hr as <-.
Qed.


(** ** The walk over a directory *)

Lemma kind_kept_refl (t : gmap string node) : kind_kept t t.
Proof. by intros k Hk. Qed.

Lemma kind_kept_trans (t1 t2 t3 : gmap string node) :
  kind_kept t1 t2 -> kind_kept t2 t3 -> kind_kept t1 t3.
Proof.
  intros H12 H23 k Hk. destruct (H12 k Hk) as [Hk2 E2].
  destruct (H23 k Hk2) as [Hk3 E3]. split; [done|congruence].
Qed.

Lemma kind_kept_new (t : gmap string node) (k : string) (n : node) :
  t !! k = None -> kind_kept t (<[k := n]> t).
Proof.
  intros Hnone j [x Hj]. assert (k <> j) by congruence.
  unfold is_file. rewrite lookup_insert_ne by done. by rewrite Hj.
Qed.

Lemma kind_kept_write (t : gmap string node) (k : string) (b : list byte) :
  t !! k <> Some Dir -> kind_kept t (<[k := File b]> t).
Proof.
  intros Hk j [x Hj]. unfold is_file. destruct (decide (k = j)) as [->|Hne].
  - rewrite lookup_insert_eq, Hj. split; [done|].
    destruct x; [done|congruence].
  - rewrite lookup_insert_ne by done. by rewrite Hj.
Qed.

Lemma render_keeps_kinds (self : ProcessModel) (w : world) :
  kind_kept (fs w) (fs (render self w).2).
Proof.
  rewrite render_run. pose proof (dispatch_fs self w) as Hfs.
  destruct (dispatch self w) as [[[r|v]|e] w']; simpl in *;
    try (rewrite Hfs; apply kind_kept_refl).
  destruct v as [|s|b]; try (rewrite <- Hfs; apply kind_kept_refl).
  rewrite save_buffer, <- Hfs.
  destruct (fs w' !! output_dir self) as [[c|]|] eqn:Ho; simpl;
    [|apply kind_kept_refl|]; apply kind_kept_write; congruence.
Qed.

Lemma thumbnail_keeps_kinds (path : string) (w : world) :
  kind_kept (fs w) (fs (thumbnail path w).2).
Proof.
  rewrite thumbnail_run, init_run.
  destruct (fs w !! thumbnails_dir (attributes path)) as [[c|]|] eqn:Ht.
  - apply kind_kept_refl.
  - apply render_keeps_kinds.
  - eapply kind_kept_trans; [|apply render_keeps_kinds].
    by apply kind_kept_new.
Qed.

Lemma process_file_run (fpath : string) (w : world) :
  process_file fpath w =
    match thumbnail fpath (World (fs w) (stdout w ++ ["Processing file: " +:+ fpath])) with
    | (Ok _, w') => (Ok tt, w')
    | (Raise e, w') => (Raise e, w')
    end.
Proof.
  unfold process_file, bind, print, ret.
  by destruct (thumbnail fpath _) as [[b|e] w'].
Qed.

Lemma process_file_keeps_kinds (fpath : string) (w : world) :
  kind_kept (fs w) (fs (process_file fpath w).2).
Proof.
  rewrite process_file_run.
  pose proof (thumbnail_keeps_kinds fpath
                (World (fs w) (stdout w ++ ["Processing file: " +:+ fpath]))) as H.
  by destruct (thumbnail fpath _) as [[b|e] w'].
Qed.

(** Every name the listing gives is the name of an entry. *)
Lemma list_dir_entry (t : gmap string node) (path fname : string) :
  fname ∈ list_dir t path ->
  is_Some (t !! Path.join path fname) /\
  Path.basename (Path.join path fname) = fname.
Proof.
  unfold list_dir. rewrite list_elem_of_omap.
  intros ([k n] & Hin & Hc). apply elem_of_map_to_list in Hin.
  unfold child_name in Hc. simpl in Hc.
  destruct (negb _ && _) eqn:E; [|done].
  injection Hc as <-. apply andb_true_iff in E as [_ E].
  apply String.eqb_eq in E. rewrite E. by split; [exists n|].
Qed.

Lemma visit_run (path fname : string) (w : world) :
  visit path fname w =
    if is_candidate (fs w) path fname then process_file (Path.join path fname) w
    else (Ok tt, w).
Proof.
  unfold visit, bind, isfile, is_candidate, ret.
  by destruct (_ && _).
Qed.

Lemma for_each_cons {A} (x : A) (l : list A) (body : A -> M unit) (w : world) :
  for_each (x :: l) body w =
    match body x w with
    | (Ok _, w') => for_each l body w'
    | (Raise e, w') => (Raise e, w')
    end.
Proof. done. Qed.

(** The loop of lines 63-67 tests each entry when it reaches it; the
    renders before it have not changed which entries are files, so the loop
    processes the candidates of the start. *)
Lemma for_each_visit (path : string) (t0 : gmap string node)
    (names : list string) (w : world) :
  kind_kept t0 (fs w) ->
  (forall fname, fname ∈ names -> is_Some (t0 !! Path.join path fname)) ->
  for_each names (visit path) w =
    for_each (Path.join path <$> filter (fun fname => is_candidate t0 path fname) names)
             process_file w.
Proof.
  revert w. induction names as [|fname names IH]; intros w Hk Hex; [done|].
  assert (Hc : is_candidate (fs w) path fname = is_candidate t0 path fname).
  { unfold is_candidate. f_equal. apply Hk, Hex, list_elem_of_here. }
  assert (Hrest : forall n, n ∈ names -> is_Some (t0 !! Path.join path n)).
  { intros n Hn. by apply Hex, list_elem_of_further. }
  rewrite for_each_cons, visit_run, Hc.
  destruct (is_candidate t0 path fname) eqn:E.
  - rewrite filter_cons_True by by rewrite E.
    rewrite fmap_cons, for_each_cons.
    pose proof (process_file_keeps_kinds (Path.join path fname) w) as Hk'.
    destruct (process_file (Path.join path fname) w) as [[[]|e] w']; [|done].
    apply IH; [|done]. by eapply kind_kept_trans.
  - rewrite filter_cons_False by by apply Is_true_false_2.
    by apply IH.
Qed.

Lemma process_path_dir (path : string) (w : world) :
  is_dir (fs w) path = true ->
  process_path path w =
    for_each (walk_dir (fs w) path) process_file
             (World (fs w) (stdout w ++ ["Processing folder: " +:+ path])).
Proof.
  intros Hd. unfold process_path, bind, isdir, print, listdir. rewrite Hd. simpl.
  apply for_each_visit; [apply kind_kept_refl|].
  intros fname Hl. by apply list_dir_entry.
Qed.

Lemma for_each_app {A} (l1 l2 : list A) (body : A -> M unit) (w : world) :
  for_each (l1 ++ l2) body w =
    match for_each l1 body w with
    | (Ok _, w1) => for_each l2 body w1
    | (Raise e, w1) => (Raise e, w1)
    end.
Proof.
  revert w. induction l1 as [|x l1 IH]; intros w; [done|].
  rewrite <- app_comm_cons, !for_each_cons.
  destruct (body x w) as [[[]|e] w']; [apply IH|done].
Qed.

(** C8. For a directory, [process_path] announces the folder and then
    processes, one after the other, the sequence [walk_dir] of its first
    state: the direct entries that are regular files with a supported
    extension in any case, in the order of the listing. Entries with
    another extension, subdirectories and what lies inside them are not in
    that sequence. *)
Theorem walk_processes_supported_files (path : string) (w : world) :
  is_dir (fs w) path = true ->
  process_path path w =
    (print ("Processing folder: " +:+ path) ;;;
     for_each (walk_dir (fs w) path) process_file) w
  /\
  (forall fpath,
     fpath ∈ walk_dir (fs w) path <->
     exists fname,
       fname ∈ list_dir (fs w) path /\ fpath = Path.join path fname /\
       is_file (fs w) fpath = true /\
       supported (Path.lower (Path.splitext fname).2) = true)
  /\
  sublist (walk_dir (fs w) path) (Path.join path <$> list_dir (fs w) path)
  /\
  (forall fpath,
     fpath ∈ walk_dir (fs w) path ->
     fpath = Path.join path (Path.basename fpath) /\ is_dir (fs w) fpath = false).
Proof.
  intros Hd.
  assert (Hin : forall fpath,
     fpath ∈ walk_dir (fs w) path <->
     exists fname,
       fname ∈ list_dir (fs w) path /\ fpath = Path.join path fname /\
       is_file (fs w) fpath = true /\
       supported (Path.lower (Path.splitext fname).2) = true).
  { intros fpath. unfold walk_dir. rewrite list_elem_of_fmap. split.
    - intros (fname & -> & [Hc Hl]%list_elem_of_filter). exists fname.
      apply Is_true_true, andb_true_iff in Hc as [Hf Hs]. by repeat split.
    - intros (fname & Hl & -> & Hf & Hs). exists fname. split; [done|].
      apply list_elem_of_filter. split; [|done].
      apply Is_true_true. unfold is_candidate. by rewrite Hf, Hs. }
  split; [|split; [done|split]].
  - by rewrite process_path_dir.
  - unfold walk_dir. apply fmap_sublist, sublist_filter.
  - intros fpath (fname & Hl & -> & Hf & _)%Hin.
    destruct (list_dir_entry _ _ _ Hl) as [_ ->]. split; [done|].
    unfold is_file in Hf. unfold is_dir.
    by destruct (fs w !! Path.join path fname) as [[c|]|].
Qed.

(** When lines 27-49 end with [return], the value is [False] and one line
    was printed. *)
Lemma dispatch_return (self : ProcessModel) (w w' : world) (b : bool) :
  dispatch self w = (Ok (Return b), w') ->
  b = false /\ exists line, w' = World (fs w) (stdout w ++ [line]).
Proof.
  destruct (supported (extension self)) eqn:Hs.
  - destruct (supported_cases _ Hs) as [E|[E|E]].
    + rewrite dispatch_obj, obj_strategy_run by done.
      destruct (process_obj _ _); simpl; congruence.
    + rewrite dispatch_glb, glb_strategy_run by done.
      destruct (fs w !! model_path self) as [[c|]|]; try congruence.
      destruct (glb_to_image c); simpl; congruence.
    + rewrite dispatch_stl, stl_strategy_run by done.
      destruct (process_stl _ _) as [m|e]; [|congruence].
      destruct (dict_get "error" m) as [d|]; [|congruence].
      intros [= <- <-]. split; [done|by eexists].
  - rewrite dispatch_unsupported by done.
    intros [= <- <-]. split; [done|by eexists].
Qed.

(** A render that returns [False] has reported why and changed no file. *)
Lemma render_false_reported (self : ProcessModel) (w w' : world) :
  render self w = (Ok false, w') ->
  exists line, w' = World (fs w) (stdout w ++ [line]).
Proof.
  rewrite render_run.
  destruct (dispatch self w) as [[[b|v]|e] w0] eqn:Hd; [| |done].
  - apply dispatch_return in Hd as [-> [line ->]]. intros [= <-]. by eexists.
  - apply dispatch_candidate_world in Hd as ->.
    destruct v as [|s|b]; [rewrite save_not_buffer by done..|].
    + intros [= <-]. by eexists.
    + intros [= <-]. by eexists.
    + rewrite save_buffer. by destruct (fs w !! output_dir self) as [[c|]|].
Qed.

(** What the constructor leaves behind: the files are the same. *)
Lemma init_files (path : string) (w w' : world) (self : ProcessModel) :
  init path w = (Ok self, w') ->
  self = attributes path /\ stdout w' = stdout w /\
  forall k, is_file (fs w') k = is_file (fs w) k.
Proof.
  rewrite init_run.
  destruct (fs w !! thumbnails_dir (attributes path)) as [[c|]|] eqn:Ht;
    [done| |]; intros [= <- <-]; repeat split; try done.
  intros k. simpl. unfold is_file.
  destruct (decide (thumbnails_dir (attributes path) = k)) as [<-|Hne].
  - by rewrite lookup_insert_eq, Ht.
  - by rewrite lookup_insert_ne.
Qed.

(** An exception out of [ProcessModel(path).render()] comes from the
    filesystem or from a renderer. *)
Lemma thumbnail_raises (path : string) (w w' : world) (e : exn) :
  thumbnail path w = (Raise e, w') ->
  e = FileExistsError (thumbnails_dir (attributes path)) \/
  e = IsADirectoryError (output_dir (attributes path)) \/
  e = IsADirectoryError path \/
  e = FileNotFoundError path \/
  (exists t, process_obj t path = Raise e) \/
  (exists b, glb_to_image b = Raise e) \/
  (exists t, process_stl t path = Raise e).
Proof.
  rewrite thumbnail_run, init_run.
  set (self := attributes path).
  destruct (fs w !! thumbnails_dir self) as [[c|]|];
    [intros [= <- <-]; by left| |];
    match goal with |- render self ?w0 = _ -> _ => generalize w0 end;
    intros w0; rewrite render_run;
    (destruct (supported (extension self)) eqn:Hs;
     [destruct (supported_cases _ Hs) as [E|[E|E]]|]).
  all: try (rewrite dispatch_unsupported by done; intros [=]).
  all: try (rewrite dispatch_obj, obj_strategy_run by done;
            destruct (process_obj (fs w0) (model_path self)) as [v|x] eqn:Hr; simpl;
            [|intros [= <- <-]; do 4 right; left; by eexists]).
  all: try (rewrite dispatch_glb, glb_strategy_run by done;
            destruct (fs w0 !! model_path self) as [[g|]|];
            [|intros [= <- <-]; by do 2 right; left
             |intros [= <- <-]; by do 3 right; left];
            destruct (glb_to_image g) as [v|x] eqn:Hr; simpl;
            [|intros [= <- <-]; do 5 right; left; by eexists]).
  all: try (rewrite dispatch_stl, stl_strategy_run by done;
            destruct (process_stl (fs w0) (model_path self)) as [m|x] eqn:Hr;
            [|intros [= <- <-]; do 6 right; by eexists];
            destruct (dict_get "error" m); [intros [=]|];
            generalize (select_view m); intros v).
  all: destruct v as [|s|b]; [by rewrite save_not_buffer by done..|];
       rewrite save_buffer;
       destruct (fs w0 !! output_dir self) as [[c'|]|]; try done;
       intros [= <- <-]; right; by left.
Qed.

(** C9, as amended. In the walk of a directory, a candidate whose render
    returns (with [True] or [False]) does not stop the walk: the value is
    dropped and the remaining candidates are processed. A render that
    returns [False] has printed one line and written no file, and [render]
    returns [False] whenever lines 27-49 end with [return] or select a
    value that is not a buffer. An exception is not caught: it ends the walk
    before the remaining candidates, and it comes from the filesystem (the
    thumbnails path is a regular file, the output path is a directory, the
    model cannot be read) or from a renderer that raises. *)
Theorem walk_continues_after_reported_failure
    (path : string) (w : world) (l1 : list string) (fpath : string)
    (l2 : list string) (w1 : world) :
  is_dir (fs w) path = true ->
  walk_dir (fs w) path = (l1 ++ fpath :: l2)%list ->
  for_each l1 process_file
    (World (fs w) (stdout w ++ ["Processing folder: " +:+ path])) = (Ok tt, w1) ->
  let w1' := World (fs w1) (stdout w1 ++ ["Processing file: " +:+ fpath]) in
  (forall b w2,
     thumbnail fpath w1' = (Ok b, w2) ->
     process_path path w = for_each l2 process_file w2)
  /\
  (forall w2,
     thumbnail fpath w1' = (Ok false, w2) ->
     (exists line : string, stdout w2 = (stdout w1' ++ [line])%list) /\
     (forall k, is_file (fs w2) k = is_file (fs w1) k))
  /\
  (forall e w2,
     thumbnail fpath w1' = (Raise e, w2) ->
     process_path path w = (Raise e, w2) /\
     (e = FileExistsError (thumbnails_dir (attributes fpath)) \/
      e = IsADirectoryError (output_dir (attributes fpath)) \/
      e = IsADirectoryError fpath \/
      e = FileNotFoundError fpath \/
      (exists t, process_obj t fpath = Raise e) \/
      (exists b, glb_to_image b = Raise e) \/
      (exists t, process_stl t fpath = Raise e)))
  /\
  (forall self w0 s w',
     dispatch self w0 = (Ok s, w') ->
     match s with Return _ => True | Candidate v => is_buffer v = false end ->
     (render self w0).1 = Ok false).
Proof.
  intros Hd Hw Hl1 w1'.
  assert (Hrun : process_path path w =
                 match thumbnail fpath w1' with
                 | (Ok _, w2) => for_each l2 process_file w2
                 | (Raise e, w2) => (Raise e, w2)
                 end).
  { rewrite process_path_dir, Hw, for_each_app, Hl1 by done.
    rewrite for_each_cons, process_file_run. fold w1'.
    by destruct (thumbnail fpath w1') as [[b|e] w2]. }
  split; [|split; [|split]].
  - intros b w2 Ht. by rewrite Hrun, Ht.
  - intros w2 Ht. rewrite thumbnail_run in Ht.
    destruct (init fpath w1') as [[self|e] w0] eqn:Hi; [|done].
    apply init_files in Hi as (-> & Hout & Hfiles).
    apply render_false_reported in Ht as [line ->]. simpl. split.
    + exists line. by rewrite Hout.
    + done.
  - intros e w2 Ht. split; [by rewrite Hrun, Ht|].
    by eapply thumbnail_raises.
  - intros self w0 [b|v] w' Hs Hv; rewrite render_run, Hs.
    + by apply dispatch_return in Hs as [-> _].
    + by rewrite save_not_buffer.
Qed.

(** ** What the program never does *)

Lemma only_thumbnails_refl (t : gmap string node) : only_thumbnails t t.
Proof. intros k. by left. Qed.

Lemma only_thumbnails_trans (t1 t2 t3 : gmap string node) :
  only_thumbnails t1 t2 -> only_thumbnails t2 t3 -> only_thumbnails t1 t3.
Proof.
  intros H12 H23 k.
  destruct (H12 k) as [E1|[(N1 & D1 & S1)|(N1 & [b1 F1] & S1)]];
    destruct (H23 k) as [E2|[(N2 & D2 & S2)|(N2 & [b2 F2] & S2)]].
  - left. congruence.
  - right. left. rewrite <- E1. done.
  - right. right. rewrite <- E1. eauto.
  - right. left. rewrite E2. done.
  - congruence.
  - congruence.
  - right. right. rewrite E2. eauto.
  - congruence.
  - right. right. eauto.
Qed.

Lemma only_thumbnails_mkdir (t : gmap string node) (path : string) :
  t !! thumbnails_dir (attributes path) = None ->
  only_thumbnails t (<[thumbnails_dir (attributes path) := Dir]> t).
Proof.
  intros Hn k. destruct (decide (thumbnails_dir (attributes path) = k)) as [<-|Hne].
  - right. left. rewrite lookup_insert_eq. repeat split; try done.
    rewrite thumbnails_dir_attributes. apply join_suffix.
  - left. by rewrite lookup_insert_ne.
Qed.

Lemma only_thumbnails_write (t : gmap string node) (path : string) (b : list byte) :
  t !! output_dir (attributes path) <> Some Dir ->
  only_thumbnails t (<[output_dir (attributes path) := File b]> t).
Proof.
  intros Hn k. destruct (decide (output_dir (attributes path) = k)) as [<-|Hne].
  - right. right. rewrite lookup_insert_eq. repeat split; try done.
    + by exists b.
    + apply output_dir_suffix.
  - left. by rewrite lookup_insert_ne.
Qed.

(** [render] leaves the files as they are or writes the output path. *)
Lemma render_fs (self : ProcessModel) (w : world) :
  fs (render self w).2 = fs w \/
  (fs w !! output_dir self <> Some Dir /\
   exists b, fs (render self w).2 = <[output_dir self := File b]> (fs w)).
Proof.
  rewrite render_run. pose proof (dispatch_fs self w) as Hfs.
  destruct (dispatch self w) as [[[r|v]|e] w']; simpl in *; try by left.
  destruct v as [|s|b]; try by left.
  rewrite save_buffer, <- Hfs.
  destruct (fs w' !! output_dir self) as [[c|]|] eqn:Ho; simpl;
    [right|by left|right]; (split; [congruence|by exists b]).
Qed.

Lemma thumbnail_only_thumbnails (path : string) (w : world) :
  only_thumbnails (fs w) (fs (thumbnail path w).2).
Proof.
  rewrite thumbnail_run, init_run.
  destruct (fs w !! thumbnails_dir (attributes path)) as [[c|]|] eqn:Ht.
  - apply only_thumbnails_refl.
  - destruct (render_fs (attributes path) w) as [->|[Hn [b ->]]].
    + apply only_thumbnails_refl.
    + by apply only_thumbnails_write.
  - eapply only_thumbnails_trans; [by apply only_thumbnails_mkdir|].
    match goal with |- context [render _ ?w0] => set (w1 := w0) end.
    change (<[thumbnails_dir (attributes path):=Dir]> (fs w)) with (fs w1).
    destruct (render_fs (attributes path) w1) as [->|[Hn [b ->]]].
    + apply only_thumbnails_refl.
    + by apply only_thumbnails_write.
Qed.

(** A relation between worlds that every step keeps is kept by a loop. *)
Lemma for_each_keeps {A} (R : world -> world -> Prop) (l : list A)
    (body : A -> M unit) (w : world) :
  (forall w0, R w0 w0) ->
  (forall w0 w1 w2, R w0 w1 -> R w1 w2 -> R w0 w2) ->
  (forall x w0, R w0 (body x w0).2) ->
  R w (for_each l body w).2.
Proof.
  intros Hrefl Htrans Hbody. revert w.
  induction l as [|x l IH]; intros w; [apply Hrefl|].
  rewrite for_each_cons. specialize (Hbody x w).
  destruct (body x w) as [[[]|e] w']; simpl in *; [|done].
  eapply Htrans; [exact Hbody|apply IH].
Qed.

Lemma process_file_only_thumbnails (fpath : string) (w : world) :
  only_thumbnails (fs w) (fs (process_file fpath w).2).
Proof.
  rewrite process_file_run.
  pose proof (thumbnail_only_thumbnails fpath
                (World (fs w) (stdout w ++ ["Processing file: " +:+ fpath]))) as H.
  by destruct (thumbnail fpath _) as [[b|e] w'].
Qed.

Lemma visit_only_thumbnails (path fname : string) (w : world) :
  only_thumbnails (fs w) (fs (visit path fname w).2).
Proof.
  rewrite visit_run. destruct (is_candidate _ _ _).
  - apply process_file_only_thumbnails.
  - apply only_thumbnails_refl.
Qed.

Lemma process_path_only_thumbnails (path : string) (w : world) :
  only_thumbnails (fs w) (fs (process_path path w).2).
Proof.
  unfold process_path, bind, isdir, isfile, print, listdir. simpl.
  destruct (is_dir (fs w) path).
  - match goal with |- context [for_each ?l ?f ?w0] =>
      apply (for_each_keeps (fun a b => only_thumbnails (fs a) (fs b)) l f w0)
    end.
    + intros w0. apply only_thumbnails_refl.
    + intros w0 w1 w2. apply only_thumbnails_trans.
    + intros x w0. apply visit_only_thumbnails.
  - destruct (is_file (fs w) path); [|apply only_thumbnails_refl].
    destruct (supported _); [|apply only_thumbnails_refl].
    apply process_file_only_thumbnails.
Qed.

Lemma main_frame (argv : list string) (w : world) :
  only_thumbnails (fs w) (fs (main argv w).2).
Proof.
  destruct argv as [|prog [|path rest]]; try apply only_thumbnails_refl.
  apply process_path_only_thumbnails.
Qed.

(** X1. Whatever the arguments and the renderers, and also when an
    exception ends the run, [main] changes the filesystem in two ways only:
    it creates directories whose path ends in [thumbnails], and it writes
    files whose path ends in [.png] where no directory stands. Every other
    entry is as before: nothing is removed. *)
Theorem main_only_thumbnails (argv : list string) (w : world) :
  forall k,
    fs (main argv w).2 !! k = fs w !! k \/
    (fs w !! k = None /\ fs (main argv w).2 !! k = Some Dir /\
     ends_with k "thumbnails") \/
    (fs w !! k <> Some Dir /\ (exists b, fs (main argv w).2 !! k = Some (File b)) /\
     ends_with k ".png").
Proof. apply main_frame. Qed.

Lemma supported_length (e : string) :
  supported (Path.lower e) = true -> String.length e = 4.
Proof.
  intros Hs.
  destruct e as [|c1 [|c2 [|c3 [|c4 [|c5 e]]]]]; try done;
    apply supported_cases in Hs as [Hs|[Hs|Hs]]; discriminate.
Qed.

(** A path whose last component has a supported extension ends neither in
    [.png] nor in [thumbnails]. *)
Lemma supported_not_output (a f : string) :
  supported (Path.lower (Path.splitext f).2) = true ->
  ~ ends_with (a +:+ f) ".png" /\ ~ ends_with (a +:+ f) "thumbnails".
Proof.
  intros Hs. pose proof (supported_length _ Hs) as Hl.
  pose proof (splitext_app f) as Hf.
  split; intros [x Hx]; rewrite <- Hf, app_str_assoc in Hx.
  - apply app_str_suffix_eq in Hx; [|done]. by rewrite Hx in Hs.
  - change "thumbnails" with ("thumbn" +:+ "ails") in Hx.
    rewrite (app_str_assoc x) in Hx.
    apply app_str_suffix_eq in Hx; [|done]. by rewrite Hx in Hs.
Qed.

Lemma only_thumbnails_supported (t t' : gmap string node) (a f : string) :
  only_thumbnails t t' ->
  supported (Path.lower (Path.splitext f).2) = true ->
  t' !! (a +:+ f) = t !! (a +:+ f).
Proof.
  intros H Hs. destruct (supported_not_output a f Hs) as [Hpng Hth].
  destruct (H (a +:+ f)) as [E|[(_ & _ & E)|(_ & _ & E)]]; done.
Qed.

(** X2. [main] never touches a model: an entry whose path has a supported
    extension (in any case) is after the run what it was before, content
    included, and none is created. *)
Theorem main_keeps_models (argv : list string) (w : world) (k : string) :
  supported (Path.lower (Path.splitext k).2) = true ->
  fs (main argv w).2 !! k = fs w !! k.
Proof.
  intros Hs.
  apply (only_thumbnails_supported (fs w) (fs (main argv w).2) "" k); [|done].
  apply main_frame.
Qed.

(** X3. A run does not turn its output into input: after [main], every name
    is a candidate of every directory exactly when it was one before. *)
Theorem main_keeps_candidates (argv : list string) (w : world) (path fname : string) :
  is_candidate (fs (main argv w).2) path fname = is_candidate (fs w) path fname.
Proof.
  unfold is_candidate.
  destruct (supported (Path.lower (Path.splitext fname).2)) eqn:Hs;
    [|by rewrite !andb_false_r].
  f_equal. unfold is_file. destruct (join_suffix path fname) as [a ->].
  rewrite (only_thumbnails_supported (fs w) (fs (main argv w).2) a fname); [done| |done].
  apply main_frame.
Qed.

(** *** The console *)

Lemma console_grows_refl (w : world) : console_grows w w.
Proof. exists []. by rewrite app_nil_r. Qed.

Lemma console_grows_trans (w0 w1 w2 : world) :
  console_grows w0 w1 -> console_grows w1 w2 -> console_grows w0 w2.
Proof.
  intros [l1 H1] [l2 H2]. exists (l1 ++ l2)%list.
  by rewrite H2, H1, <- app_assoc.
Qed.

Lemma bind_console {A B} (m : M A) (k : A -> M B) (w : world) :
  (forall w0, console_grows w0 (m w0).2) ->
  (forall a w0, console_grows w0 (k a w0).2) ->
  console_grows w (bind m k w).2.
Proof.
  intros Hm Hk. unfold bind. specialize (Hm w).
  destruct (m w) as [[a|e] w']; simpl in *; [|done].
  eapply console_grows_trans; [exact Hm|apply Hk].
Qed.

Lemma print_console (line : string) (w : world) :
  console_grows w (print line w).2.
Proof. by exists [line]. Qed.

Lemma makedirs_console (d : string) (w : world) :
  console_grows w (makedirs d w).2.
Proof.
  unfold makedirs. destruct (fs w !! d) as [[c|]|]; simpl;
    try apply console_grows_refl.
  exists []. simpl. by rewrite app_nil_r.
Qed.

Lemma read_file_console (p : string) (w : world) :
  console_grows w (read_file p w).2.
Proof.
  unfold read_file. destruct (fs w !! p) as [[c|]|]; apply console_grows_refl.
Qed.

Lemma write_file_console (p : string) (b : list byte) (w : world) :
  console_grows w (write_file p b w).2.
Proof.
  unfold write_file.
  destruct (fs w !! p) as [[c|]|]; simpl; try apply console_grows_refl;
    exists []; simpl; by rewrite app_nil_r.
Qed.

(** The steps of a computation that only add lines, one after the other. *)
Ltac console_steps :=
  repeat first
    [ apply console_grows_refl
    | apply print_console
    | apply makedirs_console
    | apply read_file_console
    | apply write_file_console
    | match goal with
      | |- console_grows _ (bind _ _ _).2 => apply bind_console; intros
      end ].

Lemma render_console (self : ProcessModel) (w : world) :
  console_grows w (render self w).2.
Proof.
  revert w. unfold render, dispatch, obj_strategy, glb_strategy, stl_strategy, save.
  intros w. apply bind_console.
  - intros w0. repeat case_match; console_steps.
    destruct (dict_get "error" a); console_steps.
  - intros [b|v] w0; [console_steps|]. destruct v; console_steps.
Qed.

Lemma thumbnail_console (path : string) (w : world) :
  console_grows w (thumbnail path w).2.
Proof.
  unfold thumbnail, init. console_steps. apply render_console.
Qed.

Lemma process_file_console (fpath : string) (w : world) :
  console_grows w (process_file fpath w).2.
Proof. unfold process_file. console_steps. apply thumbnail_console. Qed.

Lemma visit_console (path fname : string) (w : world) :
  console_grows w (visit path fname w).2.
Proof.
  rewrite visit_run. destruct (is_candidate _ _ _);
    [apply process_file_console|apply console_grows_refl].
Qed.

Lemma for_each_visit_console (path : string) (names : list string) (w : world) :
  console_grows w (for_each names (visit path) w).2.
Proof.
  apply (for_each_keeps console_grows).
  - apply console_grows_refl.
  - apply console_grows_trans.
  - intros x w0. apply visit_console.
Qed.

Lemma console_after_first (w w' : world) (line : string) :
  console_grows (World (fs w) (stdout w ++ [line])) w' ->
  exists rest, stdout w' = (stdout w ++ line :: rest)%list.
Proof. intros [rest H]. exists rest. simpl in H. by rewrite H, <- app_assoc. Qed.

(** X4. [main] always says something and takes nothing back: after any
    run, also one that an exception ends, the console holds the lines it
    held before, followed by at least one new line. *)
Theorem main_always_reports (argv : list string) (w : world) :
  exists line rest, stdout (main argv w).2 = (stdout w ++ line :: rest)%list.
Proof.
  destruct argv as [|prog [|path rest]]; simpl;
    [by eexists _, []|by eexists _, []|].
  unfold process_path, bind, isdir, isfile, print, listdir. simpl.
  destruct (is_dir (fs w) path).
  - eexists. eapply console_after_first, for_each_visit_console.
  - destruct (is_file (fs w) path); [|by eexists _, []].
    destruct (supported _); [|by eexists _, []].
    rewrite process_file_run. eexists.
    eapply console_after_first.
    pose proof (thumbnail_console path
      (World (fs w) (stdout w ++ ["Processing file: " +:+ path]))) as H.
    destruct (thumbnail path _) as [[b|e] w']; exact H.
Qed.

(** ** Edges of [process_path], [main] and the constructor *)

(** X5. A path that is no directory and is either missing or a file with
    another extension is refused with one line; nothing is constructed, so
    the filesystem stays as it is (no thumbnails directory appears), and
    [process_path] returns normally. *)
Theorem process_path_refuses (path : string) (w : world) :
  is_dir (fs w) path = false ->
  is_file (fs w) path = false \/
    supported (Path.lower (Path.splitext path).2) = false ->
  process_path path w =
    (Ok tt,
     World (fs w)
           (stdout w ++
            [if is_file (fs w) path
             then "Unsupported file format: " +:+ Path.lower (Path.splitext path).2
             else "Path does not exist: " +:+ path])).
Proof.
  intros Hd H. unfold process_path, bind, isdir, isfile, print. rewrite Hd.
  destruct (is_file (fs w) path); [|done].
  destruct H as [H|H]; [done|]. by rewrite H.
Qed.

(** X6. In a directory none of whose entries is a candidate (an empty
    folder, or one with other files and subfolders only), [process_path]
    announces the folder and does nothing else. *)
Theorem process_path_no_candidates (path : string) (w : world) :
  is_dir (fs w) path = true ->
  (forall fname, fname ∈ list_dir (fs w) path ->
                 is_candidate (fs w) path fname = false) ->
  process_path path w =
    (Ok tt, World (fs w) (stdout w ++ ["Processing folder: " +:+ path])).
Proof.
  intros Hd Hnone. rewrite process_path_dir by done.
  assert (walk_dir (fs w) path = []) as ->; [|done].
  unfold walk_dir.
  induction (list_dir (fs w) path) as [|fname names IH]; [done|].
  rewrite filter_cons_False.
  - apply IH. intros n Hn. by apply Hnone, list_elem_of_further.
  - apply Is_true_false_2, Hnone, list_elem_of_here.
Qed.

(** X7. Without a path argument [main] prints the usage line, touches
    nothing and returns normally; with one, it processes [argv[1]] and
    ignores the name of the program and any further argument. *)
Theorem main_arguments (argv : list string) (w : world) :
  (length argv < 2 ->
   main argv w =
     (Ok tt,
      World (fs w)
            (stdout w ++
             ["Usage: python convert_model_to_image.py <file_or_folder_path>"])))
  /\
  (forall path, argv !! 1 = Some path -> main argv w = process_path path w).
Proof.
  split.
  - intros Hl. destruct argv as [|prog [|path rest]]; simpl in *; [done|done|lia].
  - intros path Hp. destruct argv as [|prog [|p rest]]; simpl in *; try done.
    by injection Hp as ->.
Qed.

(** X8. The constructor can be repeated: for a model whose directory
    exists, once the constructor has returned, the directory of the
    thumbnails is there, no other entry and no line has changed, and a
    second construction returns the same object and changes nothing. *)
Theorem init_repeatable (path : string) (w w1 : world) (self : ProcessModel) :
  dir_exists (fs w) (Path.dirname path) ->
  init path w = (Ok self, w1) ->
  is_dir (fs w1) (thumbnails_dir self) = true /\
  (forall k, k <> thumbnails_dir self -> fs w1 !! k = fs w !! k) /\
  stdout w1 = stdout w /\
  init path w1 = (Ok self, w1).
Proof.
  intros _. rewrite !init_run. unfold is_dir.
  destruct (fs w !! thumbnails_dir (attributes path)) as [[c|]|] eqn:Ht;
    [done| |]; intros [= <- <-].
  - by rewrite Ht.
  - cbn [fs stdout]. rewrite !lookup_insert_eq. repeat split; try done.
    intros k Hk. by rewrite lookup_insert_ne.
Qed.

(** X9. When exactly a thumbnail is made: for a model whose directory
    exists, [ProcessModel(path).render()] returns [True] if and only if the
    thumbnails path is not a regular file, the output path is not a
    directory, and lines 27-49 select an [io.BytesIO] buffer. *)
Theorem thumbnail_succeeds_iff (path : string) (w : world) :
  let self := attributes path in
  let seen := <[thumbnails_dir self := Dir]> (fs w) in
  dir_exists (fs w) (Path.dirname path) ->
  (exists w1, thumbnail path w = (Ok true, w1)) <->
  is_file (fs w) (thumbnails_dir self) = false /\
  is_dir (fs w) (output_dir self) = false /\
  exists b, dispatch self (World seen (stdout w))
            = (Ok (Candidate (PBytesIO b)), World seen (stdout w)).
Proof.
  intros self seen _.
  pose proof (output_dir_not_thumbnails_dir path path) as Hne. fold self in Hne.
  assert (Hout : seen !! output_dir self = fs w !! output_dir self).
  { unfold seen. by rewrite lookup_insert_ne. }
  split.
  - intros [w1 Hrun].
    destruct (thumbnail_true path w w1 Hrun) as (b & Hd & Ho & _).
    fold self seen in Hd, Ho. rewrite Hout in Ho.
    split; [|split; [|by exists b]].
    + rewrite thumbnail_run, init_run in Hrun. fold self in Hrun.
      unfold is_file. by destruct (fs w !! thumbnails_dir self) as [[c|]|].
    + unfold is_dir. by destruct (fs w !! output_dir self) as [[c|]|].
  - intros (Hf & Ho & b & Hd). rewrite thumbnail_run, init_run. fold self.
    assert (Hsave : exists w1, render self (World seen (stdout w)) = (Ok true, w1)).
    { rewrite render_run, Hd, save_buffer. cbn [fs]. rewrite Hout.
      unfold is_dir in Ho.
      destruct (fs w !! output_dir self) as [[c|]|]; [|done|]; by eexists. }
    unfold is_file in Hf.
    destruct (fs w !! thumbnails_dir self) as [[c|]|] eqn:Ht; [done| |exact Hsave].
    destruct Hsave as [w1 Hs]. exists w1. rewrite <- Hs. f_equal.
    unfold seen. rewrite insert_id by done. by destruct w.
Qed.



(** ** More on the choice among the views *)

Lemma first_truthy_sound (vs : list pyval) :
  first_truthy vs PNone = PNone \/
  (truthy (first_truthy vs PNone) = true /\ first_truthy vs PNone ∈ vs).
Proof.
  induction vs as [|v vs IH]; simpl; [by left|].
  destruct (truthy v) eqn:Hv.
  - right. split; [done|apply list_elem_of_here].
  - destruct IH as [IH|[IH1 IH2]]; [by left|].
    right. split; [done|by apply list_elem_of_further].
Qed.

Lemma select_view_sound (m : dict) :
  select_view m = PNone \/
  (truthy (select_view m) = true /\ select_view m ∈ dict_values m).
Proof.
  unfold select_view. destruct (dict_get "front" m) as [front|] eqn:Hf.
  - destruct (truthy front) eqn:Ht; [|apply first_truthy_sound].
    right. split; [done|]. by eapply dict_get_in_values.
  - apply first_truthy_sound.
Qed.

(** X10. The choice among the views returns a value of the mapping that is
    true, or [None]; it returns [None] exactly when no view is true. So
    [render] never selects an empty string or a value from elsewhere, and
    it gives up on an STL result only when every view is false. *)
Theorem select_view_none_iff (m : dict) :
  (select_view m = PNone <-> Forall falsy (dict_values m)) /\
  (select_view m <> PNone ->
   truthy (select_view m) = true /\ select_view m ∈ dict_values m).
Proof.
  split; [split|].
  - intros Hn. apply Forall_forall. intros v Hv.
    destruct (truthy v) eqn:Ht; [|done]. exfalso.
    assert (Hex : Exists (fun x => truthy x = true) (dict_values m)).
    { apply Exists_exists. by exists v. }
    destruct (first_truthy_split _ PNone Hex) as (pre & x & post & _ & _ & Hx & Hsel).
    unfold select_view in Hn.
    destruct (dict_get "front" m) as [front|];
      [destruct (truthy front) eqn:Hfr|];
      [by rewrite Hn in Hfr|by rewrite Hsel in Hn; rewrite Hn in Hx..].
  - apply select_view_all_false.
  - intros Hne. by destruct (select_view_sound m) as [H|H].
Qed.

(** ** Two models with one name *)

(** X11. The output path depends on the directory of the model and on its
    name without the extension only. When two models of one directory
    differ in their extension alone and both renders succeed, the second
    thumbnail replaces the first: the file holds the bytes of the buffer
    selected for the second model. *)
Theorem same_name_overwrites (p1 p2 : string) (w w1 w2 : world) :
  Path.dirname p1 = Path.dirname p2 ->
  (Path.splitext (Path.basename p1)).1 = (Path.splitext (Path.basename p2)).1 ->
  thumbnail p1 w = (Ok true, w1) ->
  thumbnail p2 w1 = (Ok true, w2) ->
  output_dir (attributes p1) = output_dir (attributes p2) /\
  exists b1 b2,
    fs w1 !! output_dir (attributes p1) = Some (File b1) /\
    dispatch (attributes p2) w1 = (Ok (Candidate (PBytesIO b2)), w1) /\
    fs w2 !! output_dir (attributes p1) = Some (File b2).
Proof.
  intros Hdir Hname H1 H2.
  assert (Hout : output_dir (attributes p1) = output_dir (attributes p2)).
  { unfold attributes; simpl. by rewrite Hdir, Hname. }
  assert (Hth : thumbnails_dir (attributes p1) = thumbnails_dir (attributes p2)).
  { unfold attributes; simpl. by rewrite Hdir. }
  split; [done|].
  destruct (thumbnail_true p1 w w1 H1) as (b1 & _ & _ & Hw1).
  destruct (thumbnail_true p2 w1 w2 H2) as (b2 & Hd & _ & Hw2).
  assert (Hdir1 : fs w1 !! thumbnails_dir (attributes p2) = Some Dir).
  { rewrite Hw1. cbn [fs]. rewrite <- Hth.
    rewrite lookup_insert_ne by apply output_dir_not_thumbnails_dir.
    by rewrite lookup_insert_eq. }
  rewrite (insert_id _ _ _ Hdir1) in Hd.
  replace (World (fs w1) (stdout w1)) with w1 in Hd by by destruct w1.
  exists b1, b2. split; [|split; [exact Hd|]].
  - rewrite Hw1. cbn [fs]. by rewrite lookup_insert_eq.
  - rewrite Hw2. cbn [fs]. by rewrite Hout, lookup_insert_eq.
Qed.

(** ** The case of the letters *)

(** Lower-casing makes no separator and no dot, and removes none. *)
Lemma eqb_lower_sep (a : ascii) :
  Ascii.eqb (Path.lower_ascii a) Path.sep = Ascii.eqb a Path.sep.
Proof. destruct a as [[] [] [] [] [] [] [] []]; reflexivity. Qed.

Lemma eqb_lower_extsep (a : ascii) :
  Ascii.eqb (Path.lower_ascii a) Path.extsep = Ascii.eqb a Path.extsep.
Proof. destruct a as [[] [] [] [] [] [] [] []]; reflexivity. Qed.

Lemma rfind_from_lower (c : ascii) (s : string) (i : Z) :
  (forall a, Ascii.eqb (Path.lower_ascii a) c = Ascii.eqb a c) ->
  Path.rfind_from c (Path.lower s) i = Path.rfind_from c s i.
Proof.
  intros Hc. revert i. induction s as [|a s IH]; intros i; [done|].
  simpl. by rewrite IH, Hc.
Qed.

Lemma take_str_lower (n : nat) (s : string) :
  Path.take_str n (Path.lower s) = Path.lower (Path.take_str n s).
Proof.
  revert s. induction n as [|n IH]; intros [|a s]; simpl; try done.
  by rewrite IH.
Qed.

Lemma drop_str_lower (n : nat) (s : string) :
  Path.drop_str n (Path.lower s) = Path.lower (Path.drop_str n s).
Proof.
  revert s. induction n as [|n IH]; intros [|a s]; simpl; try done.
Qed.

Lemma all_char_lower (s : string) :
  Path.all_char Path.extsep (Path.lower s) = Path.all_char Path.extsep s.
Proof.
  induction s as [|a s IH]; [done|]. simpl. by rewrite IH, eqb_lower_extsep.
Qed.

(** [splitext] cuts a path and its lower-cased form at the same place. *)
Lemma splitext_lower (p : string) :
  Path.splitext (Path.lower p)
    = (Path.lower (Path.splitext p).1, Path.lower (Path.splitext p).2).
Proof.
  unfold Path.splitext, Path.rfind.
  rewrite !rfind_from_lower by (apply eqb_lower_sep || apply eqb_lower_extsep).
  destruct (_ <? _)%Z; [|done].
  rewrite drop_str_lower, take_str_lower, all_char_lower.
  destruct (Path.all_char _ _); [done|].
  by rewrite take_str_lower, drop_str_lower.
Qed.

(** X12. The case of the letters of an ASCII path plays no part in the
    dispatch: two ASCII paths that are equal once lower-cased have the same
    extension for [render], hence the same strategy, and are supported
    together. *)
Theorem extension_ignores_case (p1 p2 : string) :
  Path.is_ascii p1 = true -> Path.is_ascii p2 = true ->
  Path.lower p1 = Path.lower p2 ->
  extension (attributes p1) = extension (attributes p2) /\
  extension (attributes p1) = (Path.splitext (Path.lower p1)).2.
Proof.
  intros _ _ H. unfold extension, attributes; simpl.
  pose proof (splitext_lower p1) as H1. pose proof (splitext_lower p2) as H2.
  rewrite H in H1. rewrite H1 in H2. injection H2 as _ H2.
  split; [done|]. by rewrite H, H1.
Qed.

(** ** A walk that no exception ends *)

Lemma render_returns (self : ProcessModel) (w : world) :
  never_raise process_obj ->
  (forall g, exists v, glb_to_image g = Ok v) ->
  never_raise process_stl ->
  is_dir (fs w) (output_dir self) = false ->
  is_file (fs w) (model_path self) = true ->
  exists b w', render self w = (Ok b, w').
Proof.
  intros Hobj Hglb Hstl Hout Hfile. rewrite render_run.
  assert (Hsave : forall v w0, fs w0 = fs w -> exists b w', save self v w0 = (Ok b, w')).
  { intros v w0 Hw0. destruct v as [|s|b];
      [rewrite save_not_buffer by done; by eexists _, _..|].
    rewrite save_buffer, Hw0. unfold is_dir in Hout.
    destruct (fs w !! output_dir self) as [[c|]|]; [|done|]; by eexists _, _. }
  destruct (supported (extension self)) eqn:Hs.
  - destruct (supported_cases _ Hs) as [E|[E|E]].
    + rewrite dispatch_obj, obj_strategy_run by done.
      destruct (Hobj (fs w) (model_path self)) as [v ->]. by apply Hsave.
    + rewrite dispatch_glb, glb_strategy_run by done. unfold is_file in Hfile.
      destruct (fs w !! model_path self) as [[g|]|]; [|done..].
      destruct (Hglb g) as [v ->]. by apply Hsave.
    + rewrite dispatch_stl, stl_strategy_run by done.
      destruct (Hstl (fs w) (model_path self)) as [m ->].
      destruct (dict_get "error" m); [by eexists _, _|by apply Hsave].
  - rewrite dispatch_unsupported by done. by eexists _, _.
Qed.

Lemma thumbnail_returns (path : string) (w : world) :
  never_raise process_obj ->
  (forall g, exists v, glb_to_image g = Ok v) ->
  never_raise process_stl ->
  is_file (fs w) (thumbnails_dir (attributes path)) = false ->
  is_dir (fs w) (output_dir (attributes path)) = false ->
  is_file (fs w) path = true ->
  exists b w', thumbnail path w = (Ok b, w').
Proof.
  intros Hobj Hglb Hstl Hth Hout Hfile. rewrite thumbnail_run, init_run.
  unfold is_file in Hth.
  destruct (fs w !! thumbnails_dir (attributes path)) as [[c|]|] eqn:Ht; [done| |].
  - by apply render_returns.
  - apply render_returns; try done; cbn [fs].
    + unfold is_dir. rewrite lookup_insert_ne; [done|].
      intros E. by apply (output_dir_not_thumbnails_dir path path).
    + unfold is_file in *. rewrite lookup_insert_ne; [done|].
      intros E. change (model_path (attributes path)) with path in E.
      by rewrite <- E, Ht in Hfile.
Qed.

(** The conditions under which a candidate can be rendered survive the
    renders of the others. *)
Lemma renderable_kept (t t' : gmap string node) (c : string) :
  only_thumbnails t t' ->
  is_file t (thumbnails_dir (attributes c)) = false ->
  is_dir t (output_dir (attributes c)) = false ->
  is_file t c = true ->
  is_file t' (thumbnails_dir (attributes c)) = false /\
  is_dir t' (output_dir (attributes c)) = false /\
  is_file t' c = true.
Proof.
  intros H Hth Hout Hfile. unfold is_file, is_dir in *. repeat split.
  - destruct (H (thumbnails_dir (attributes c)))
      as [->|[(_ & -> & _)|(_ & _ & [a Ha])]]; [done|done|].
    exfalso. apply (f_equal Path.last_char) in Ha.
    rewrite thumbnails_dir_attributes, last_char_join, last_char_app in Ha;
      done.
  - destruct (H (output_dir (attributes c)))
      as [->|[(_ & _ & [a Ha])|(_ & [b ->] & _)]]; [done| |done].
    exfalso. destruct (output_dir_suffix c) as [x Hx]. rewrite Hx in Ha.
    apply (f_equal Path.last_char) in Ha.
    rewrite !last_char_app in Ha; done.
  - destruct (H c) as [->|[(Hn & _ & _)|(_ & [b ->] & _)]]; [done| |done].
    by rewrite Hn in Hfile.
Qed.

Lemma for_each_process_file_completes (t0 : gmap string node) (l : list string) (w : world) :
  never_raise process_obj ->
  (forall g, exists v, glb_to_image g = Ok v) ->
  never_raise process_stl ->
  only_thumbnails t0 (fs w) ->
  (forall c, c ∈ l ->
     is_file t0 (thumbnails_dir (attributes c)) = false /\
     is_dir t0 (output_dir (attributes c)) = false /\
     is_file t0 c = true) ->
  exists w',
    for_each l process_file w = (Ok tt, w') /\
    console_grows w w' /\
    forall c, c ∈ l -> "Processing file: " +:+ c ∈ stdout w'.
Proof.
  intros Hobj Hglb Hstl. revert w.
  induction l as [|c l IH]; intros w Hw Hl.
  - exists w. split; [done|]. split; [apply console_grows_refl|].
    intros c Hc. by apply elem_of_nil in Hc.
  - destruct (Hl c (list_elem_of_here _ _)) as (H1 & H2 & H3).
    destruct (renderable_kept t0 (fs w) c Hw H1 H2 H3) as (H1' & H2' & H3').
    rewrite for_each_cons, process_file_run.
    set (w0 := World (fs w) (stdout w ++ ["Processing file: " +:+ c])).
    destruct (thumbnail_returns c w0 Hobj Hglb Hstl H1' H2' H3') as (b & w1 & Hrun).
    pose proof (thumbnail_only_thumbnails c w0) as Hfr.
    pose proof (thumbnail_console c w0) as [lines Hcon].
    rewrite Hrun in Hfr, Hcon |- *. simpl in Hfr, Hcon.
    destruct (IH w1) as (w' & Hrest & [more Hmore] & Hin).
    { by eapply only_thumbnails_trans. }
    { intros x Hx. by apply Hl, list_elem_of_further. }
    exists w'. split; [done|]. split.
    + exists (["Processing file: " +:+ c] ++ lines ++ more)%list.
      rewrite Hmore, Hcon. by rewrite <- !app_assoc.
    + intros x [->|Hx]%elem_of_cons; [|by apply Hin].
      rewrite Hmore, Hcon. set_solver.
Qed.

(** X13. When the renderers never raise and, for every candidate of a
    directory, the thumbnails path is not a regular file and the output
    path is not a directory, the walk runs to its end: [process_path]
    returns normally and has announced every candidate, also those whose
    render returned [False]. *)
Theorem walk_completes (path : string) (w : world) :
  is_dir (fs w) path = true ->
  never_raise process_obj ->
  (forall g, exists v, glb_to_image g = Ok v) ->
  never_raise process_stl ->
  (forall c, c ∈ walk_dir (fs w) path ->
     is_file (fs w) (thumbnails_dir (attributes c)) = false /\
     is_dir (fs w) (output_dir (attributes c)) = false) ->
  exists w',
    process_path path w = (Ok tt, w') /\
    forall c, c ∈ walk_dir (fs w) path -> "Processing file: " +:+ c ∈ stdout w'.
Proof.
  intros Hd Hobj Hglb Hstl Hc. rewrite process_path_dir by done.
  destruct (for_each_process_file_completes (fs w) (walk_dir (fs w) path)
              (World (fs w) (stdout w ++ ["Processing folder: " +:+ path]))
              Hobj Hglb Hstl) as (w' & Hrun & _ & Hin).
  - apply only_thumbnails_refl.
  - intros c Hin. destruct (Hc c Hin) as [H1 H2]. repeat split; try done.
    unfold walk_dir in Hin. apply list_elem_of_fmap in Hin as (fname & -> & Hf).
    apply list_elem_of_filter in Hf as [Hf _].
    apply Is_true_true, andb_true_iff in Hf as [Hf _]. done.
  - by exists w'.
Qed.

(** ** The name of the thumbnail *)

Lemma rfind_from_none (c : ascii) (s : string) (i : Z) :
  Path.mem_char c s = false -> Path.rfind_from c s i = (-1)%Z.
Proof.
  revert i. induction s as [|a s IH]; intros i; simpl; [done|].
  intros [Ha Hs]%orb_false_iff. by rewrite IH, Ha.
Qed.

(** The last occurrence is where nothing of the kind follows. *)
Lemma rfind_from_app (c : ascii) (a b : string) (i : Z) :
  (0 <= i)%Z -> Path.mem_char c b = false ->
  Path.rfind_from c (a +:+ String c b) i = (i + Z.of_nat (String.length a))%Z.
Proof.
  intros Hi Hb. revert i Hi. induction a as [|x a IH]; intros i Hi.
  - change ("" +:+ String c b) with (String c b). simpl.
    rewrite rfind_from_none by done. simpl. rewrite Ascii.eqb_refl. lia.
  - rewrite app_str_cons. simpl Path.rfind_from. rewrite IH by lia.
    destruct (0 <=? _)%Z eqn:E; [simpl String.length; lia|].
    apply Z.leb_gt in E. lia.
Qed.

Lemma rfind_from_bound (c : ascii) (s : string) (i : Z) :
  (0 <= i)%Z ->
  (Path.rfind_from c s i < i + Z.of_nat (String.length s))%Z \/ s = "".
Proof.
  revert i. induction s as [|a s IH]; intros i Hi; [by right|]. left.
  simpl Path.rfind_from. simpl String.length.
  destruct (IH (i + 1)%Z ltac:(lia)) as [H| ->]; simpl.
  - destruct (0 <=? _)%Z; [lia|]. destruct (Ascii.eqb a c); lia.
  - destruct (Ascii.eqb a c); lia.
Qed.

Lemma rfind_from_app_none (c : ascii) (a b : string) (i : Z) :
  Path.mem_char c b = false ->
  Path.rfind_from c (a +:+ b) i = Path.rfind_from c a i.
Proof.
  intros Hb. revert i. induction a as [|x a IH]; intros i.
  - change ("" +:+ b) with b. by rewrite rfind_from_none.
  - rewrite app_str_cons. simpl. by rewrite IH.
Qed.

(** A string has no [c], or has a last one. *)
Lemma split_last (c : ascii) (s : string) :
  Path.mem_char c s = false \/
  exists a b, s = a +:+ String c b /\ Path.mem_char c b = false.
Proof.
  induction s as [|x s IH]; [by left|].
  destruct IH as [Hs|(a & b & -> & Hb)].
  - simpl. destruct (Ascii.eqb_spec x c) as [->|Hx]; [|by left].
    right. by exists "", s.
  - right. exists (String x a), b. by rewrite app_str_cons.
Qed.

Lemma drop_str_app (a b : string) :
  Path.drop_str (String.length a) (a +:+ b) = b.
Proof. induction a as [|x a IH]; [by destruct b|]. by rewrite app_str_cons. Qed.

Lemma take_str_app (a b : string) :
  Path.take_str (String.length a) (a +:+ b) = a.
Proof.
  induction a as [|x a IH]; [by destruct b|].
  rewrite app_str_cons. simpl. by rewrite IH.
Qed.

Lemma length_app_sep (a b : string) :
  String.length (a +:+ String Path.sep b) = S (String.length a + String.length b).
Proof. rewrite length_app_str. simpl. lia. Qed.

Lemma app_str_snoc (a : string) (c : ascii) (b : string) :
  a +:+ String c b = (a +:+ String c "") +:+ b.
Proof. by rewrite <- app_str_assoc. Qed.

Lemma app_str_mid (a : string) (c : ascii) (b r : string) :
  a +:+ String c (b +:+ r) = (a +:+ String c b) +:+ r.
Proof. by rewrite <- app_str_assoc. Qed.

(** Below a directory, [splitext] cuts the same extension as on the name
    alone. *)
Lemma splitext_below (a b : string) :
  Path.mem_char Path.sep b = false ->
  (Path.splitext (a +:+ String Path.sep b)).2 = (Path.splitext b).2.
Proof.
  intros Hb. unfold Path.splitext, Path.rfind.
  rewrite (rfind_from_app Path.sep a b 0) by done.
  rewrite (rfind_from_none Path.sep b) by done.
  destruct (split_last Path.extsep b) as [Hd|(b1 & b2 & -> & Hd)].
  - rewrite (rfind_from_none Path.extsep b) by done.
    rewrite rfind_from_app_none by (simpl; by rewrite Hd).
    assert ((0 + Z.of_nat (String.length a) <? Path.rfind_from Path.extsep a 0)%Z = false)
      as ->; [|done].
    apply Z.ltb_ge. destruct (rfind_from_bound Path.extsep a 0 ltac:(lia)) as [H| ->]; [lia|done].
  - rewrite mem_char_app in Hb. apply orb_false_iff in Hb as [Hb1 Hb2].
    rewrite (rfind_from_app Path.extsep b1 b2 0) by done.
    rewrite app_str_mid.
    rewrite (rfind_from_app Path.extsep (a +:+ String Path.sep b1) b2 0) by done.
    rewrite length_app_sep.
    assert ((0 + Z.of_nat (String.length a)
             <? 0 + Z.of_nat (S (String.length a + String.length b1)))%Z = true)
      as -> by (apply Z.ltb_lt; lia).
    assert ((-1 <? 0 + Z.of_nat (String.length b1))%Z = true)
      as -> by (apply Z.ltb_lt; lia).
    replace (Z.to_nat (0 + Z.of_nat (S (String.length a + String.length b1))))
      with (String.length (a +:+ String Path.sep b1)) by (rewrite length_app_sep; lia).
    replace (Z.to_nat (0 + Z.of_nat (String.length a) + 1))
      with (String.length (a +:+ String Path.sep "")) by (rewrite length_app_sep; simpl; lia).
    replace (Z.to_nat (0 + Z.of_nat (String.length b1))) with (String.length b1) by lia.
    replace (Z.to_nat (-1 + 1)) with 0 by lia.
    replace (String.length (a +:+ String Path.sep b1)
             - String.length (a +:+ String Path.sep ""))
      with (String.length b1) by (rewrite !length_app_sep; simpl; lia).
    rewrite Nat.sub_0_r.
    assert (Hlead : Path.drop_str (String.length (a +:+ String Path.sep ""))
                      ((a +:+ String Path.sep b1) +:+ String Path.extsep b2)
                    = b1 +:+ String Path.extsep b2).
    { rewrite <- app_str_mid.
      rewrite (app_str_snoc a Path.sep (b1 +:+ String Path.extsep b2)).
      apply drop_str_app. }
    rewrite Hlead. change (Path.drop_str 0 ?s) with s.
    rewrite take_str_app.
    destruct (Path.all_char Path.extsep b1); [done|]. simpl.
    by rewrite !drop_str_app.
Qed.

(** The extension cut from the name is the extension cut from the path. *)
Lemma splitext_basename (p : string) :
  (Path.splitext (Path.basename p)).2 = (Path.splitext p).2.
Proof.
  unfold Path.basename, Path.rfind.
  destruct (split_last Path.sep p) as [Hp|(a & b & -> & Hb)].
  - by rewrite rfind_from_none.
  - rewrite (rfind_from_app Path.sep a b 0) by done.
    replace (Z.to_nat (0 + Z.of_nat (String.length a) + 1))
      with (String.length (a +:+ String Path.sep "")) by (rewrite length_app_sep; simpl; lia).
    rewrite (app_str_snoc a Path.sep b) at 1. rewrite drop_str_app.
    by rewrite splitext_below.
Qed.

(** X14. The thumbnail is named after the model: the file name of the model
    is the name kept for the thumbnail followed by the very extension that
    [render] lower-cases and dispatches on, and the output path is that
    name with [.png] in the directory of the thumbnails. *)
Theorem thumbnail_named_after_model (path : string) :
  let self := attributes path in
  model_name self +:+ (Path.splitext path).2 = Path.basename path /\
  extension self = Path.lower (Path.splitext (Path.basename path)).2 /\
  output_dir self = thumbnails_dir self +:+ "/" +:+ model_name self +:+ ".png".
Proof.
  intros self. split; [|split].
  - rewrite <- splitext_basename. apply splitext_app.
  - unfold extension. by rewrite splitext_basename.
  - apply output_dir_shape.
Qed.

(** ** The parent of the directory of the thumbnails *)

Lemma last_char_rstrip (c : ascii) (s : string) :
  Path.last_char (Path.rstrip c s) <> Some c.
Proof.
  induction s as [|a s IH]; [done|]. simpl.
  destruct (Path.rstrip c s) as [|b r] eqn:E.
  - destruct (Ascii.eqb_spec a c); [done|]. simpl. congruence.
  - simpl in *. destruct r; done.
Qed.

Lemma rstrip_id (c : ascii) (s : string) :
  Path.last_char s <> Some c -> Path.rstrip c s = s.
Proof.
  induction s as [|a s IH]; [done|]. intros Hl. simpl.
  destruct s as [|b s].
  - simpl in *. destruct (Ascii.eqb_spec a c); [congruence|done].
  - rewrite IH by done. done.
Qed.

Lemma rstrip_snoc (c : ascii) (s : string) :
  Path.rstrip c (s +:+ String c "") = Path.rstrip c s.
Proof.
  induction s as [|a s IH].
  - simpl. by rewrite Ascii.eqb_refl.
  - rewrite app_str_cons. simpl. by rewrite IH.
Qed.

Lemma all_char_snoc (c : ascii) (s : string) :
  Path.all_char c (s +:+ String c "") = Path.all_char c s.
Proof.
  induction s as [|a s IH].
  - simpl. by rewrite Ascii.eqb_refl.
  - rewrite app_str_cons. simpl. by rewrite IH.
Qed.

Lemma all_char_last (c : ascii) (s : string) :
  s <> "" -> Path.all_char c s = true -> Path.last_char s = Some c.
Proof.
  induction s as [|a s IH]; [done|]. intros _. simpl.
  intros [Ha Hs]%andb_true_iff. apply Ascii.eqb_eq in Ha as ->.
  destruct s as [|b s]; [done|]. by apply IH.
Qed.

(** A string that ends with [c] is a string followed by [c]. *)
Lemma last_char_snoc (c : ascii) (s : string) :
  Path.last_char s = Some c -> exists r, s = r +:+ String c "".
Proof.
  induction s as [|a s IH]; [done|]. simpl. destruct s as [|b s].
  - intros [= ->]. by exists "".
  - intros H. destruct (IH H) as [r ->]. exists (String a r).
    by rewrite app_str_cons.
Qed.

(** What [dirname] returns is empty, or made of separators, or does not end
    with one. *)
Lemma dirname_shape (p : string) :
  Path.dirname p = "" \/
  Path.all_char Path.sep (Path.dirname p) = true \/
  Path.last_char (Path.dirname p) <> Some Path.sep.
Proof.
  unfold Path.dirname.
  set (head := Path.take_str _ p).
  destruct (String.eqb_spec head "") as [->|Hne]; [by left|].
  destruct (Path.all_char Path.sep head) eqn:Ha; simpl; [by right; left|].
  right. right. apply last_char_rstrip.
Qed.

Lemma dirname_below (d f : string) :
  Path.mem_char Path.sep f = false ->
  Path.dirname (d +:+ String Path.sep f)
    = if Path.all_char Path.sep d then d +:+ String Path.sep ""
      else Path.rstrip Path.sep d.
Proof.
  intros Hf. unfold Path.dirname, Path.rfind.
  rewrite (rfind_from_app Path.sep d f 0) by done.
  replace (Z.to_nat (0 + Z.of_nat (String.length d) + 1))
    with (String.length (d +:+ String Path.sep ""))
    by (rewrite length_app_sep; simpl; lia).
  rewrite (app_str_snoc d Path.sep f), take_str_app.
  rewrite all_char_snoc, rstrip_snoc.
  assert (String.eqb (d +:+ String Path.sep "") "" = false) as ->.
  { apply String.eqb_neq. by destruct d. }
  simpl. by destruct (Path.all_char Path.sep d).
Qed.

(** The directory that the constructor creates lies directly below the
    directory of the model. *)
Lemma dirname_thumbnails_dir (path : string) :
  Path.dirname (thumbnails_dir (attributes path)) = model_dir (attributes path).
Proof.
  rewrite thumbnails_dir_attributes.
  change (model_dir (attributes path)) with (Path.dirname path).
  destruct (dirname_shape path) as [E|[Ha|Hl]].
  - by rewrite E.
  - destruct (String.eqb_spec (Path.dirname path) "") as [E|Hne]; [by rewrite E|].
    pose proof (all_char_last _ _ Hne Ha) as Hl.
    destruct (last_char_snoc _ _ Hl) as [r Hr].
    unfold Path.join. simpl.
    assert (String.eqb (Path.dirname path) "" = false) as ->
      by by apply String.eqb_neq.
    rewrite bool_decide_eq_true_2 by done.
    rewrite Hr, <- (app_str_snoc r Path.sep "thumbnails").
    rewrite dirname_below by done.
    rewrite Hr, all_char_snoc in Ha. by rewrite Ha.
  - destruct (String.eqb_spec (Path.dirname path) "") as [E|Hne]; [by rewrite E|].
    rewrite join_plain by done.
    change (Path.dirname path +:+ "/" +:+ "thumbnails")
      with (Path.dirname path +:+ String Path.sep "thumbnails").
    rewrite dirname_below by done.
    destruct (Path.all_char Path.sep (Path.dirname path)) eqn:Ha.
    + by rewrite (all_char_last _ _ Hne Ha) in Hl.
    + by apply rstrip_id.
Qed.

End Program.

(** ** Runs on sample data *)

Example splitext_upper : Path.lower (Path.splitext "/models/Chair.OBJ").2 = ".obj".
Proof. reflexivity. Qed.

Example splitext_dotfile : Path.splitext "/models/.obj" = ("/models/.obj", "").
Proof. reflexivity. Qed.

Example splitext_dir_dot : Path.splitext "/mod.els/chair" = ("/mod.els/chair", "").
Proof. reflexivity. Qed.

Example splitext_two_dots : Path.splitext "/models/a.tar.obj" = ("/models/a.tar", ".obj").
Proof. reflexivity. Qed.

Example attributes_chair :
  attributes "/models/chair.obj" =
    {| model_path := "/models/chair.obj";
       model_dir := "/models";
       model_name := "chair";
       thumbnails_dir := "/models/thumbnails";
       output_dir := "/models/thumbnails/chair.png" |}.
Proof. reflexivity. Qed.

Example attributes_relative :
  output_dir (attributes "chair.obj") = "thumbnails/chair.png".
Proof. reflexivity. Qed.

Example attributes_root :
  output_dir (attributes "/chair.obj") = "/thumbnails/chair.png".
Proof. reflexivity. Qed.

Example extension_any_case :
  Forall (fun path => extension (attributes path) = ".obj")
         ["a.obj"; "a.OBJ"; "a.Obj"; "a.oBj"; "a.obJ"; "a.OBj"; "a.ObJ"; "a.oBJ"].
Proof. repeat constructor. Qed.

Example listing_models :
  list_dir Demo.models "/models" = ["old"; "gear.stl"; "chair.obj"; "tank.GLB"; "photo.jpg"].
Proof. vm_compute. reflexivity. Qed.

Example walk_models :
  walk_dir Demo.models "/models"
    = ["/models/gear.stl"; "/models/chair.obj"; "/models/tank.GLB"].
Proof. vm_compute. reflexivity. Qed.

(** The scenario of the chair: the OBJ renderer returns a buffer, and the
    thumbnail holds its bytes. *)
Example chair_scenario :
  let run := thumbnail (Demo.obj_returns (PBytesIO Demo.png)) (Demo.glb_returns PNone)
                       (Demo.stl_returns []) "/models/chair.obj"
                       (Demo.start Demo.models) in
  run.1 = Ok true /\
  fs run.2 !! "/models/thumbnails/chair.png" = Some (File Demo.png) /\
  stdout run.2 = ["Thumbnail saved to /models/thumbnails/chair.png"].
Proof. repeat split; vm_compute; reflexivity. Qed.

(** The scenario of the tank: the GLB renderer returns no buffer, and no
    file appears. *)
Example tank_scenario :
  let run := thumbnail (Demo.obj_returns PNone) (Demo.glb_returns PNone)
                       (Demo.stl_returns []) "/models/tank.GLB"
                       (Demo.start Demo.models) in
  run.1 = Ok false /\
  fs run.2 !! "/models/thumbnails/tank.png" = None /\
  stdout run.2 = ["Model conversion failed or returned error: None"].
Proof. repeat split; vm_compute; reflexivity. Qed.

(** The scenario of the missing path. *)
Example missing_scenario :
  process_path (Demo.obj_returns PNone) (Demo.glb_returns PNone) (Demo.stl_returns [])
               "/missing/does_not_exist.obj" (Demo.start Demo.models)
    = (Ok tt, Demo.said Demo.models "Path does not exist: /missing/does_not_exist.obj").
Proof. vm_compute. reflexivity. Qed.

(** ** The theorems on sample data *)

(** C2 on sample data: "front" comes last, after another view that holds a
    buffer. *)
Lemma front_view_selected_witness :
  extension Demo.gear = ".stl" /\
  dict_get "error" Demo.views_front_last = None /\
  dict_get "front" Demo.views_front_last = Some (PBytesIO Demo.png) /\
  dispatch (Demo.obj_returns PNone) (Demo.glb_returns PNone)
           (Demo.stl_returns Demo.views_front_last) Demo.gear (Demo.start Demo.models)
    = (Ok (Candidate (PBytesIO Demo.png)), Demo.start Demo.models).
Proof.
  do 3 (split; [reflexivity|]).
  apply (front_view_selected _ _ _ Demo.gear (Demo.start Demo.models)
           Demo.views_front_last (PBytesIO Demo.png)); reflexivity.
Defined.

(** C2 as stated fails when the mapping also has the key "error": "front"
    holds a buffer, and [render] prints the error and returns [False]
    without selecting an image. *)
Lemma front_view_not_selected_with_error :
  extension Demo.gear = ".stl" /\
  dict_get "front" Demo.views_with_error = Some (PBytesIO Demo.png) /\
  truthy (PBytesIO Demo.png) = true /\
  dispatch (Demo.obj_returns PNone) (Demo.glb_returns PNone)
           (Demo.stl_returns Demo.views_with_error) Demo.gear (Demo.start Demo.models)
    = (Ok (Return false), Demo.said Demo.models "mesh has no faces") /\
  render (Demo.obj_returns PNone) (Demo.glb_returns PNone)
         (Demo.stl_returns Demo.views_with_error) Demo.gear (Demo.start Demo.models)
    = (Ok false, Demo.said Demo.models "mesh has no faces").
Proof. repeat split. Qed.

(** C3 on sample data: no "front", and the first view is [None]. *)
Lemma first_true_view_selected_witness :
  extension Demo.gear = ".stl" /\
  dict_get "error" Demo.views_no_front = None /\
  dict_get "front" Demo.views_no_front = None /\
  exists pre v post,
    dict_values Demo.views_no_front = (pre ++ v :: post)%list /\
    Forall falsy pre /\ truthy v = true /\
    dispatch (Demo.obj_returns PNone) (Demo.glb_returns PNone)
             (Demo.stl_returns Demo.views_no_front) Demo.gear (Demo.start Demo.models)
      = (Ok (Candidate v), Demo.start Demo.models) /\
    forall (self' : ProcessModel) (w' : world),
      extension self' = ".stl" ->
      Demo.stl_returns Demo.views_no_front (fs w') (model_path self')
        = Ok Demo.views_no_front ->
      dispatch (Demo.obj_returns PNone) (Demo.glb_returns PNone)
               (Demo.stl_returns Demo.views_no_front) self' w'
        = (Ok (Candidate v), w').
Proof.
  do 3 (split; [reflexivity|]).
  apply (first_true_view_selected (Demo.obj_returns PNone) (Demo.glb_returns PNone)
           (Demo.stl_returns Demo.views_no_front) Demo.gear (Demo.start Demo.models)
           Demo.views_no_front); try reflexivity.
  - intros front [=].
  - apply Exists_cons_tl, Exists_cons_hd. reflexivity.
Defined.

(** C3 as stated fails when the mapping also has the key "error": there is
    no "front", "top" holds a buffer, and no image is selected. *)
Lemma first_view_not_selected_with_error :
  extension Demo.gear = ".stl" /\
  dict_get "front" Demo.views_error_no_front = None /\
  dict_get "top" Demo.views_error_no_front = Some (PBytesIO Demo.png2) /\
  dispatch (Demo.obj_returns PNone) (Demo.glb_returns PNone)
           (Demo.stl_returns Demo.views_error_no_front) Demo.gear (Demo.start Demo.models)
    = (Ok (Return false), Demo.said Demo.models "mesh has no faces").
Proof. repeat split. Qed.

(** C4 on sample data: the views are [None] or an empty string. *)
Lemma all_views_false_fails_witness :
  extension Demo.gear = ".stl" /\
  dict_get "error" Demo.views_all_none = None /\
  Forall falsy (dict_values Demo.views_all_none) /\
  render (Demo.obj_returns PNone) (Demo.glb_returns PNone)
         (Demo.stl_returns Demo.views_all_none) Demo.gear (Demo.start Demo.models)
    = (Ok false,
       Demo.said Demo.models "Model conversion failed or returned error: None").
Proof.
  assert (H : Forall falsy (dict_values Demo.views_all_none)).
  { repeat constructor. }
  do 2 (split; [reflexivity|]). split; [exact H|].
  apply (all_views_false_fails _ _ _ Demo.gear (Demo.start Demo.models)
           Demo.views_all_none); [reflexivity..|exact H].
Defined.

(** C4 as stated fails for a view that holds a buffer without bytes: the
    folder of the model exists, the only view is empty, and
    [ProcessModel(path).render()] writes an empty file and returns
    [True]. *)
Lemma empty_buffer_is_written :
  dict_get "error" Demo.views_empty_buffer = None /\
  dict_values Demo.views_empty_buffer = [PBytesIO []] /\
  is_dir Demo.models "/models" = true /\
  Demo.models !! "/models/thumbnails/gear.png" = None /\
  let run := thumbnail (Demo.obj_returns PNone) (Demo.glb_returns PNone)
                       (Demo.stl_returns Demo.views_empty_buffer)
                       "/models/gear.stl" (Demo.start Demo.models) in
  run.1 = Ok true /\
  fs run.2 !! "/models/thumbnails" = Some Dir /\
  fs run.2 !! "/models/thumbnails/gear.png" = Some (File []) /\
  stdout run.2 = ["Thumbnail saved to /models/thumbnails/gear.png"].
Proof. repeat split; vm_compute; reflexivity. Qed.

(** C5 on sample data: the descriptor is printed as it is. *)
Lemma stl_error_descriptor_reported_witness :
  extension Demo.gear = ".stl" /\
  dict_get "error" Demo.views_with_error = Some (PStr "mesh has no faces") /\
  render (Demo.obj_returns PNone) (Demo.glb_returns PNone)
         (Demo.stl_returns Demo.views_with_error) Demo.gear (Demo.start Demo.models)
    = (Ok false, Demo.said Demo.models "mesh has no faces").
Proof.
  do 2 (split; [reflexivity|]).
  apply (stl_error_descriptor_reported _ _ _ Demo.gear (Demo.start Demo.models)
           Demo.views_with_error (PStr "mesh has no faces")); reflexivity.
Defined.

(** C10 on sample data: "front" holds a buffer, and the error wins. *)
Lemma error_key_precedes_views_witness :
  extension Demo.gear = ".stl" /\
  dict_get "error" Demo.views_with_error = Some (PStr "mesh has no faces") /\
  dict_get "front" Demo.views_with_error = Some (PBytesIO Demo.png) /\
  dispatch (Demo.obj_returns PNone) (Demo.glb_returns PNone)
           (Demo.stl_returns Demo.views_with_error) Demo.gear (Demo.start Demo.models)
    = (Ok (Return false), Demo.said Demo.models "mesh has no faces") /\
  forall v,
    dispatch (Demo.obj_returns PNone) (Demo.glb_returns PNone)
             (Demo.stl_returns Demo.views_with_error) Demo.gear (Demo.start Demo.models)
      <> (Ok (Candidate v), Demo.start Demo.models).
Proof.
  do 3 (split; [reflexivity|]).
  split;
    apply (error_key_precedes_views _ _ _ Demo.gear (Demo.start Demo.models)
             Demo.views_with_error (PStr "mesh has no faces")); reflexivity.
Defined.

(** C1 on sample data: [.GLB] goes to the GLB renderer; [.jpg] is refused
    by [render] with the files unchanged; and for the whole call on the
    picture, whose folder exists, the new directory is the only change. *)
Lemma render_dispatches_on_extension_witness :
  let obj := Demo.obj_returns PNone in
  let glb := Demo.glb_returns (PBytesIO Demo.png) in
  let stl := Demo.stl_returns [] in
  extension (attributes "/models/tank.GLB") = ".glb" /\
  dispatch obj glb stl (attributes "/models/tank.GLB") (Demo.start Demo.models)
    = (Ok (Candidate (PBytesIO Demo.png)), Demo.start Demo.models) /\
  supported (extension (attributes "/models/photo.jpg")) = false /\
  render obj glb stl (attributes "/models/photo.jpg") (Demo.start Demo.models)
    = (Ok false, Demo.said Demo.models "Unsupported model format: .jpg") /\
  dir_exists Demo.models (Path.dirname "/models/photo.jpg") /\
  thumbnail obj glb stl "/models/photo.jpg" (Demo.start Demo.models)
    = (Ok false,
       Demo.said (<["/models/thumbnails" := Dir]> Demo.models)
                 "Unsupported model format: .jpg").
Proof.
  intros obj glb stl.
  pose proof (render_dispatches_on_extension obj glb stl
                (attributes "/models/tank.GLB") (Demo.start Demo.models))
    as (_ & Hglb & _).
  pose proof (render_dispatches_on_extension obj glb stl
                (attributes "/models/photo.jpg") (Demo.start Demo.models))
    as (_ & _ & _ & Hno & Hall).
  assert (Hdir : dir_exists Demo.models (Path.dirname "/models/photo.jpg"))
    by (right; reflexivity).
  split; [reflexivity|]. split.
  { rewrite Hglb by reflexivity. reflexivity. }
  split; [reflexivity|]. split; [apply Hno; reflexivity|].
  split; [exact Hdir|].
  rewrite (Hall "/models/photo.jpg" Hdir eq_refl). reflexivity.
Defined.

(** C1 as stated fails for the whole call [ProcessModel(path).render()]:
    the extension is not supported, [render] returns [False], and the
    directory of the thumbnails, which was not there, has been created. *)
Lemma unsupported_format_creates_directory :
  let run := thumbnail (Demo.obj_returns PNone) (Demo.glb_returns PNone)
                       (Demo.stl_returns []) "/models/photo.jpg"
                       (Demo.start Demo.models) in
  supported (Path.lower (Path.splitext "/models/photo.jpg").2) = false /\
  run.1 = Ok false /\
  stdout run.2 = ["Unsupported model format: .jpg"] /\
  Demo.models !! "/models/thumbnails" = None /\
  fs run.2 !! "/models/thumbnails" = Some Dir /\
  fs run.2 <> Demo.models.
Proof.
  repeat split; try (vm_compute; reflexivity).
  intros H. apply (f_equal (fun t => t !! "/models/thumbnails")) in H.
  vm_compute in H. discriminate.
Qed.

(** C6 on sample data: the OBJ renderer returns a string. *)
Lemma file_written_only_for_buffer_witness :
  let self := attributes "/models/chair.obj" in
  let w := Demo.start Demo.models in
  dispatch (Demo.obj_returns (PStr "cannot parse")) (Demo.glb_returns PNone)
           (Demo.stl_returns []) self w = (Ok (Candidate (PStr "cannot parse")), w) /\
  is_buffer (PStr "cannot parse") = false /\
  render (Demo.obj_returns (PStr "cannot parse")) (Demo.glb_returns PNone)
         (Demo.stl_returns []) self w
    = (Ok false,
       Demo.said Demo.models "Model conversion failed or returned error: cannot parse").
Proof.
  intros self w. do 2 (split; [reflexivity|]).
  apply (proj1 (file_written_only_for_buffer
                  (Demo.obj_returns (PStr "cannot parse")) (Demo.glb_returns PNone)
                  (Demo.stl_returns []) self w) (PStr "cannot parse") w);
    reflexivity.
Defined.


(** C8 on sample data: the folder of the models. *)
Lemma walk_processes_supported_files_witness :
  let obj := Demo.obj_returns (PBytesIO Demo.png) in
  let glb := Demo.glb_returns PNone in
  let stl := Demo.stl_returns Demo.views_front_last in
  is_dir Demo.models "/models" = true /\
  process_path obj glb stl "/models" (Demo.start Demo.models) =
    (print "Processing folder: /models" ;;;
     for_each (walk_dir Demo.models "/models") (process_file obj glb stl))
      (Demo.start Demo.models).
Proof.
  intros obj glb stl. split; [reflexivity|].
  apply (walk_processes_supported_files obj glb stl "/models" (Demo.start Demo.models)).
  reflexivity.
Defined.

(** C9 on sample data: the STL render reports an error and returns
    [False], and the walk goes on with the other two models. *)
Lemma walk_continues_after_reported_failure_witness :
  let obj := Demo.obj_returns (PBytesIO Demo.png) in
  let glb := Demo.glb_returns PNone in
  let stl := Demo.stl_returns Demo.views_with_error in
  let w1 := Demo.said Demo.models "Processing folder: /models" in
  let run := thumbnail obj glb stl "/models/gear.stl"
               (World (fs w1) (stdout w1 ++ ["Processing file: /models/gear.stl"])) in
  is_dir Demo.models "/models" = true /\
  walk_dir Demo.models "/models"
    = ([] ++ "/models/gear.stl" :: ["/models/chair.obj"; "/models/tank.GLB"])%list /\
  run.1 = Ok false /\
  process_path obj glb stl "/models" (Demo.start Demo.models)
    = for_each ["/models/chair.obj"; "/models/tank.GLB"] (process_file obj glb stl) run.2.
Proof.
  intros obj glb stl w1 run.
  assert (Hw : walk_dir Demo.models "/models"
               = ([] ++ "/models/gear.stl" :: ["/models/chair.obj"; "/models/tank.GLB"])%list)
    by (vm_compute; reflexivity).
  assert (Hrun : run = (Ok false, run.2)) by (vm_compute; reflexivity).
  split; [reflexivity|]. split; [exact Hw|]. split; [by rewrite Hrun|].
  apply (proj1 (walk_continues_after_reported_failure obj glb stl "/models"
                  (Demo.start Demo.models) [] "/models/gear.stl"
                  ["/models/chair.obj"; "/models/tank.GLB"] w1
                  eq_refl Hw eq_refl) false run.2).
  exact Hrun.
Defined.

(** C9 as stated fails when a render raises: a directory stands at the
    output path of the first candidate, the write raises, nothing catches
    the exception, and the walk ends before [chair.obj], whose render would
    have succeeded. *)
Lemma walk_aborted_by_exception :
  let obj := Demo.obj_returns (PBytesIO Demo.png) in
  let glb := Demo.glb_returns PNone in
  let stl := Demo.stl_returns Demo.views_front_last in
  let run := process_path obj glb stl "/models" (Demo.start Demo.blocked) in
  walk_dir Demo.blocked "/models"
    = ["/models/gear.stl"; "/models/chair.obj"; "/models/tank.GLB"] /\
  run.1 = Raise (IsADirectoryError "/models/thumbnails/gear.png") /\
  stdout run.2 = ["Processing folder: /models"; "Processing file: /models/gear.stl"] /\
  fs run.2 !! "/models/thumbnails/chair.png" = None /\
  (thumbnail obj glb stl "/models/chair.obj" run.2).1 = Ok true.
Proof. repeat split; vm_compute; reflexivity. Qed.

(** ** The further theorems on sample data *)

(** X2 on sample data: the chair is a model, and a walk over its folder
    leaves it as it was. *)
Lemma main_keeps_models_witness :
  let obj := Demo.obj_returns (PBytesIO Demo.png) in
  let glb := Demo.glb_returns PNone in
  let stl := Demo.stl_returns Demo.views_front_last in
  supported (Path.lower (Path.splitext "/models/chair.obj").2) = true /\
  fs (main obj glb stl ["convert_model_to_image.py"; "/models"]
           (Demo.start Demo.models)).2 !! "/models/chair.obj"
    = Demo.models !! "/models/chair.obj".
Proof.
  intros obj glb stl. split; [reflexivity|].
  apply (main_keeps_models obj glb stl ["convert_model_to_image.py"; "/models"]
           (Demo.start Demo.models) "/models/chair.obj").
  reflexivity.
Defined.

(** X5 on sample data: a picture is refused. *)
Lemma process_path_refuses_witness :
  is_dir Demo.models "/models/photo.jpg" = false /\
  supported (Path.lower (Path.splitext "/models/photo.jpg").2) = false /\
  process_path (Demo.obj_returns PNone) (Demo.glb_returns PNone) (Demo.stl_returns [])
               "/models/photo.jpg" (Demo.start Demo.models)
    = (Ok tt, Demo.said Demo.models "Unsupported file format: .jpg").
Proof.
  do 2 (split; [reflexivity|]).
  apply (process_path_refuses (Demo.obj_returns PNone) (Demo.glb_returns PNone)
           (Demo.stl_returns []) "/models/photo.jpg" (Demo.start Demo.models));
    [reflexivity|right; reflexivity].
Defined.

(** X6 on sample data: a folder with a text file and a subfolder. *)
Lemma process_path_no_candidates_witness :
  is_dir Demo.attic "/attic" = true /\
  list_dir Demo.attic "/attic" = ["notes.txt"; "box"] /\
  process_path (Demo.obj_returns PNone) (Demo.glb_returns PNone) (Demo.stl_returns [])
               "/attic" (Demo.start Demo.attic)
    = (Ok tt, Demo.said Demo.attic "Processing folder: /attic").
Proof.
  assert (Hl : list_dir Demo.attic "/attic" = ["notes.txt"; "box"])
    by (vm_compute; reflexivity).
  split; [reflexivity|]. split; [exact Hl|].
  apply (process_path_no_candidates (Demo.obj_returns PNone) (Demo.glb_returns PNone)
           (Demo.stl_returns []) "/attic" (Demo.start Demo.attic)); [reflexivity|].
  intros fname Hin. cbn [fs Demo.start] in Hin. rewrite Hl in Hin.
  repeat (apply elem_of_cons in Hin as [->|Hin]; [vm_compute; reflexivity|]).
  apply elem_of_nil in Hin. destruct Hin.
Defined.

(** X7 on sample data: no argument after the name of the program. *)
Lemma main_arguments_witness :
  length ["convert_model_to_image.py"] < 2 /\
  main (Demo.obj_returns PNone) (Demo.glb_returns PNone) (Demo.stl_returns [])
       ["convert_model_to_image.py"] (Demo.start Demo.models)
    = (Ok tt,
       Demo.said Demo.models
         "Usage: python convert_model_to_image.py <file_or_folder_path>").
Proof.
  split; [simpl; lia|].
  apply (main_arguments (Demo.obj_returns PNone) (Demo.glb_returns PNone)
           (Demo.stl_returns []) ["convert_model_to_image.py"] (Demo.start Demo.models)).
  simpl. lia.
Defined.

(** X8 on sample data: the constructor for the chair, twice. *)
Lemma init_repeatable_witness :
  let w1 := World (<["/models/thumbnails" := Dir]> Demo.models) [] in
  dir_exists Demo.models (Path.dirname "/models/chair.obj") /\
  init "/models/chair.obj" (Demo.start Demo.models)
    = (Ok (attributes "/models/chair.obj"), w1) /\
  init "/models/chair.obj" w1 = (Ok (attributes "/models/chair.obj"), w1).
Proof.
  intros w1.
  assert (H : init "/models/chair.obj" (Demo.start Demo.models)
              = (Ok (attributes "/models/chair.obj"), w1))
    by (vm_compute; reflexivity).
  assert (Hdir : dir_exists Demo.models (Path.dirname "/models/chair.obj"))
    by (right; reflexivity).
  split; [exact Hdir|]. split; [exact H|].
  apply (init_repeatable "/models/chair.obj" (Demo.start Demo.models) w1 _ Hdir H).
Defined.

(** X9 on sample data: the three conditions hold for the chair. *)
Lemma thumbnail_succeeds_iff_witness :
  let obj := Demo.obj_returns (PBytesIO Demo.png) in
  let glb := Demo.glb_returns PNone in
  let stl := Demo.stl_returns [] in
  dir_exists Demo.models (Path.dirname "/models/chair.obj") /\
  is_file Demo.models "/models/thumbnails" = false /\
  is_dir Demo.models "/models/thumbnails/chair.png" = false /\
  exists w1, thumbnail obj glb stl "/models/chair.obj" (Demo.start Demo.models)
             = (Ok true, w1).
Proof.
  intros obj glb stl.
  assert (Hdir : dir_exists Demo.models (Path.dirname "/models/chair.obj"))
    by (right; reflexivity).
  split; [exact Hdir|]. do 2 (split; [reflexivity|]).
  apply (proj2 (thumbnail_succeeds_iff obj glb stl "/models/chair.obj"
                  (Demo.start Demo.models) Hdir)).
  split; [reflexivity|]. split; [reflexivity|].
  exists Demo.png. reflexivity.
Defined.

(** X10 on sample data: a view is selected, and it is a true value of the
    mapping. *)
Lemma select_view_none_iff_witness :
  select_view Demo.views_no_front <> PNone /\
  truthy (select_view Demo.views_no_front) = true /\
  select_view Demo.views_no_front ∈ dict_values Demo.views_no_front.
Proof.
  assert (H : select_view Demo.views_no_front <> PNone) by discriminate.
  split; [exact H|].
  apply (proj2 (select_view_none_iff Demo.views_no_front) H).
Defined.

(** X11 on sample data: [chair.obj] and [chair.stl] share one thumbnail,
    and the second render replaces the bytes of the first. *)
Lemma same_name_overwrites_witness :
  let obj := Demo.obj_returns (PBytesIO Demo.png) in
  let glb := Demo.glb_returns PNone in
  let stl := Demo.stl_returns [("front", PBytesIO Demo.png2)] in
  let w1 := (thumbnail obj glb stl "/models/chair.obj" (Demo.start Demo.models)).2 in
  let w2 := (thumbnail obj glb stl "/models/chair.stl" w1).2 in
  thumbnail obj glb stl "/models/chair.obj" (Demo.start Demo.models) = (Ok true, w1) /\
  thumbnail obj glb stl "/models/chair.stl" w1 = (Ok true, w2) /\
  output_dir (attributes "/models/chair.obj") = output_dir (attributes "/models/chair.stl") /\
  fs w1 !! "/models/thumbnails/chair.png" = Some (File Demo.png) /\
  fs w2 !! "/models/thumbnails/chair.png" = Some (File Demo.png2).
Proof.
  intros obj glb stl w1 w2.
  assert (H1 : thumbnail obj glb stl "/models/chair.obj" (Demo.start Demo.models)
               = (Ok true, w1)) by (vm_compute; reflexivity).
  assert (H2 : thumbnail obj glb stl "/models/chair.stl" w1 = (Ok true, w2))
    by (vm_compute; reflexivity).
  split; [exact H1|]. split; [exact H2|].
  destruct (same_name_overwrites obj glb stl "/models/chair.obj" "/models/chair.stl"
              (Demo.start Demo.models) w1 w2 eq_refl eq_refl H1 H2)
    as (Hout & b1 & b2 & Hb1 & Hd & Hb2).
  split; [exact Hout|]. split; vm_compute; reflexivity.
Defined.

(** X12 on sample data: upper and lower case. *)
Lemma extension_ignores_case_witness :
  Path.is_ascii "/Models/Tank.GLB" = true /\
  Path.is_ascii "/models/tank.glb" = true /\
  Path.lower "/Models/Tank.GLB" = Path.lower "/models/tank.glb" /\
  extension (attributes "/Models/Tank.GLB") = extension (attributes "/models/tank.glb").
Proof.
  do 3 (split; [reflexivity|]).
  apply (extension_ignores_case "/Models/Tank.GLB" "/models/tank.glb");
    reflexivity.
Defined.

(** X13 on sample data: the folder of the models, with renderers that
    return every time; the STL render fails, and the walk goes to its
    end. *)
Lemma walk_completes_witness :
  let obj := Demo.obj_returns (PBytesIO Demo.png) in
  let glb := Demo.glb_returns PNone in
  let stl := Demo.stl_returns Demo.views_with_error in
  is_dir Demo.models "/models" = true /\
  exists w',
    process_path obj glb stl "/models" (Demo.start Demo.models) = (Ok tt, w') /\
    forall c, c ∈ walk_dir Demo.models "/models" ->
              "Processing file: " +:+ c ∈ stdout w'.
Proof.
  intros obj glb stl. split; [reflexivity|].
  apply (walk_completes obj glb stl "/models" (Demo.start Demo.models)).
  - reflexivity.
  - intros t p. by eexists.
  - intros g. by eexists.
  - intros t p. by eexists.
  - intros c Hc. cbn [fs Demo.start] in Hc.
    assert (Hw : walk_dir Demo.models "/models"
                 = ["/models/gear.stl"; "/models/chair.obj"; "/models/tank.GLB"])
      by (vm_compute; reflexivity).
    rewrite Hw in Hc.
    repeat (apply elem_of_cons in Hc as [->|Hc]; [split; vm_compute; reflexivity|]).
    apply elem_of_nil in Hc. destruct Hc.
Defined.

